(** * Custom fields of nautobot.extras.models.customfields

    A shallow embedding of the custom-field models (CustomFieldModel,
    CustomField, CustomFieldChoice) together with the properties of their
    validation, form projection, save and delete methods.

    Python values are an inductive type, the database and the task queue are
    an explicit world threaded through a small state-and-exception monad, and
    every method of the source is a definition of the same name. *)

From Stdlib Require Import ZArith QArith Qround List String Ascii DecimalString Bool Lia.
Import ListNotations.
Local Close Scope Q_scope.
Local Open Scope string_scope.
Local Open Scope list_scope.

Set Warnings "-register-all".

(** ** Python values *)

(** The values a JSONField can hold (None, bool, int, float, str, list, dict)
    and [datetime.date], which [CustomField.validate] tests for.  [PFloat] is
    a finite float and stands for its exact rational value; [PInf] is
    [float("inf")] or, when negative, [float("-inf")]; [PNaN] is
    [float("nan")]. *)
Inductive pyval : Type :=
| PNone
| PBool (b : bool)
| PInt (z : Z)
| PFloat (q : Q)
| PStr (s : string)
| PList (l : list pyval)
| PDict (d : list (string * pyval))
| PDate (y m d : Z)
| PInf (negative : bool)
| PNaN.

(** A Python dict with string keys, in insertion order. *)
Definition dict (V : Type) := list (string * V).

Fixpoint dict_get {V} (k : string) (d : dict V) : option V :=
  match d with
  | [] => None
  | (k', v) :: d' => if String.eqb k k' then Some v else dict_get k d'
  end.

Definition dict_mem {V} (k : string) (d : dict V) : bool :=
  match dict_get k d with Some _ => true | None => false end.

(** [d[k] = v]: an existing key keeps its position, a new key goes last. *)
Fixpoint dict_set {V} (k : string) (v : V) (d : dict V) : dict V :=
  match d with
  | [] => [(k, v)]
  | (k', v') :: d' =>
      if String.eqb k k' then (k, v) :: d' else (k', v') :: dict_set k v d'
  end.

Definition dict_values {V} (d : dict V) : list V := map snd d.

(** [bool(v)] *)
Definition truthy (v : pyval) : bool :=
  match v with
  | PNone => false
  | PBool b => b
  | PInt z => negb (Z.eqb z 0)
  | PFloat q => negb (Qeq_bool q 0)
  | PStr s => negb (String.eqb s "")
  | PList l => match l with [] => false | _ => true end
  | PDict d => match d with [] => false | _ => true end
  | PDate _ _ _ => true
  | PInf _ => true
  | PNaN => true
  end.

(** [v == s] for a str [s]: only an equal str compares equal. *)
Definition py_eq_str (v : pyval) (s : string) : bool :=
  match v with
  | PStr t => String.eqb t s
  | _ => false
  end.

(** [v in strs] for a sequence of str. *)
Definition in_strs (v : pyval) (strs : list string) : bool :=
  existsb (py_eq_str v) strs.

(** [value not in [None, "", []]] is [negb (is_empty value)]. *)
Definition is_empty (v : pyval) : bool :=
  match v with
  | PNone => true
  | PStr "" => true
  | PList [] => true
  | _ => false
  end.

(** [value in [True, False, 1, 0]]: equality with 0 or 1 across bool, int
    and float. *)
Definition is_bool_like (v : pyval) : bool :=
  match v with
  | PBool _ => true
  | PInt z => Z.eqb z 1 || Z.eqb z 0
  | PFloat q => Qeq_bool q 1 || Qeq_bool q 0
  | _ => false
  end.

(** [needle in hay] for two str: substring search. *)
Fixpoint substr_in (needle hay : string) : bool :=
  String.prefix needle hay ||
  match hay with
  | EmptyString => false
  | String _ hay' => substr_in needle hay'
  end.

(** [", ".join(l)] *)
Fixpoint join (sep : string) (l : list string) : string :=
  match l with
  | [] => ""
  | [s] => s
  | s :: l' => s ++ sep ++ join sep l'
  end.

(** ** Field types *)

(** Modelled from the spec: nautobot.extras.choices.CustomFieldTypeChoices is
    not among the sources; the spec lists the types as text, integer, boolean,
    date, url, select and multi-select. *)
Inductive CustomFieldTypeChoices : Type :=
| TYPE_TEXT | TYPE_INTEGER | TYPE_BOOLEAN | TYPE_DATE | TYPE_URL
| TYPE_SELECT | TYPE_MULTISELECT.

Definition type_eqb (a b : CustomFieldTypeChoices) : bool :=
  match a, b with
  | TYPE_TEXT, TYPE_TEXT | TYPE_INTEGER, TYPE_INTEGER
  | TYPE_BOOLEAN, TYPE_BOOLEAN | TYPE_DATE, TYPE_DATE | TYPE_URL, TYPE_URL
  | TYPE_SELECT, TYPE_SELECT | TYPE_MULTISELECT, TYPE_MULTISELECT => true
  | _, _ => false
  end.

(** ** Models *)

Module CustomField.
(** A CustomField instance.  [present_in_database] is instance state
    ([not self._state.adding]), not a column. *)
Record t : Type := {
  pk : nat;
  type : CustomFieldTypeChoices;
  name : string;
  label : string;
  description : string;
  required : bool;
  filter_logic : string;
  default : pyval;
  weight : Z;
  validation_minimum : option Z;
  validation_maximum : option Z;
  validation_regex : string;
  present_in_database : bool
}.
End CustomField.

Module CustomFieldChoice.
(** A CustomFieldChoice instance; [field] is the related CustomField object
    it holds. *)
Record t : Type := {
  pk : nat;
  field : CustomField.t;
  value : string;
  weight : Z;
  present_in_database : bool
}.

(** The stored row of a choice: the foreign key is the field's pk. *)
Record row : Type := {
  row_pk : nat;
  field_id : nat;
  row_value : string;
  row_weight : Z
}.

Definition to_row (c : t) : row :=
  {| row_pk := pk c; field_id := CustomField.pk (field c);
     row_value := value c; row_weight := weight c |}.
End CustomFieldChoice.

(** An object of any model that mixes in CustomFieldModel: the ContentType of
    its concrete model and its [custom_field_data]. *)
Module CustomFieldModel.
Record t : Type := {
  content_type : nat;
  custom_field_data : dict pyval
}.
End CustomFieldModel.

(** ** Exceptions *)

Inductive Message : Type :=
(* CustomField.validate *)
| MustMatchRegex (regex : string)
| MustBeInteger
| MustBeAtLeast (minimum : Z)
| MustNotExceed (maximum : Z)
| MustBeTrueOrFalse
| DateFormat
| InvalidChoice (value : pyval) (available : string)
| InvalidChoices (value : pyval) (available : string)
| RequiredEmpty
(* CustomFieldModel.clean *)
| UnknownFieldName (field_name : string)
| InvalidValue (field_name : string) (reason : Message)
| MissingRequired (field_name : string)
(* CustomField.clean *)
| NameImmutable
| TypeImmutable
| InvalidDefault (value : pyval) (reason : Message)
| MinimumOnlyNumeric
| MaximumOnlyNumeric
| RegexOnlyText
| ChoicesOnlySelection
| DefaultNotAChoice (value : pyval)
(* CustomFieldChoice.clean *)
| ChoiceOnlySelection.

Inductive Protection : Type :=
| IsDefaultValue        (* "... it is the default value for the field." *)
| IsOneOfDefaultValues  (* "... it is one of the default values for the field." *)
| InActiveUse.          (* "... it is in active use." *)

(** [ValidationError key msg]: [key] is the model field the error is attached
    to when the source raises it with a dict. *)
Inductive exn : Type :=
| ValidationError (key : option string) (msg : Message)
| ProtectedError (why : Protection)
| TypeError
| ValueError
| OverflowError
| ReError
| DoesNotExist
| IntegrityError.

Inductive result (A : Type) : Type :=
| Ok (a : A)
| Raise (e : exn).
Arguments Ok {A} a.
Arguments Raise {A} e.

(** ** The world: database rows and the task queue *)

(** The Celery tasks of nautobot.extras.tasks, by the arguments of [.delay]. *)
Inductive Task : Type :=
| delete_custom_field_data (field_name : string) (content_type_pk_set : list nat)
| update_custom_field_choice_data (field_id : nat) (old_value new_value : string).

Inductive Table : Type := extras_customfield | extras_customfieldchoice.

(** What a method did to the outside, oldest first. *)
Inductive Effect : Type :=
| Saved (table : Table) (pk : nat)
| Deleted (table : Table) (pk : nat)
| Delayed (task : Task).

(** The tables the custom-field models read and write.  A queryset yields the
    rows of its table in the order of the list, filtered; sorting them by
    [Meta.ordering] is the database's work and is not modelled.
    [content_types] is the many-to-many table of CustomField;
    [objects] gives, for a ContentType, the [custom_field_data] of every row
    of its model class. *)
Record Database : Type := {
  customfields : list CustomField.t;
  content_types : list (nat * nat);
  customfieldchoices : list CustomFieldChoice.row;
  objects : nat -> list (dict pyval)
}.

Record World : Type := {
  db : Database;
  effects : list Effect
}.

(** ** A state-and-exception monad

    A raised exception keeps the world as it was when raised: nothing is
    rolled back. *)
Definition M (A : Type) : Type := World -> World * result A.

Definition ret {A} (a : A) : M A := fun w => (w, Ok a).

Definition raise {A} (e : exn) : M A := fun w => (w, Raise e).

Definition bind {A B} (m : M A) (k : A -> M B) : M B :=
  fun w =>
    match m w with
    | (w', Ok a) => k a w'
    | (w', Raise e) => (w', Raise e)
    end.

Declare Scope py_scope.
Delimit Scope py_scope with py.
Notation "x <- m ;; k" := (bind m (fun x => k))
  (at level 61, m at next level, right associativity) : py_scope.
Notation "m ;; k" := (bind m (fun _ => k))
  (at level 61, right associativity) : py_scope.
Local Open Scope py_scope.

(** [if c: body] with no else. *)
Definition when (c : bool) (body : M unit) : M unit :=
  if c then body else ret tt.

(** [for x in l: body(x)] *)
Fixpoint for_each {A} (l : list A) (body : A -> M unit) : M unit :=
  match l with
  | [] => ret tt
  | x :: l' => body x ;; for_each l' body
  end.

(** [try: m  except ValueError: handler] *)
Definition except_ValueError {A} (m : M A) (handler : M A) : M A :=
  fun w =>
    match m w with
    | (w', Raise ValueError) => handler w'
    | r => r
    end.

(** [try: m  except ValidationError as e: handler(e.message)] *)
Definition except_ValidationError {A} (m : M A) (handler : Message -> M A) : M A :=
  fun w =>
    match m w with
    | (w', Raise (ValidationError _ msg)) => handler msg w'
    | r => r
    end.

(** A query: reads the database, changes nothing. *)
Definition query {A} (q : Database -> A) : M A := fun w => (w, Ok (q (db w))).

Definition delay (t : Task) : M unit :=
  fun w => ({| db := db w; effects := effects w ++ [Delayed t] |}, Ok tt).

Definition outcome {A} (m : M A) (w : World) : result A := snd (m w).
Definition world_after {A} (m : M A) (w : World) : World := fst (m w).

(** ** What the models use from outside this module *)

(** The standard-library, framework and helper functions the methods call.
    [re_compiles p] tells whether [p] is a valid pattern and [re_match p s] is
    [re.match(p, s) is not None]; [strptime_ymd s] tells whether
    [datetime.strptime(s, "%Y-%m-%d")] returns; [int_of_str s] is [int(s)],
    [None] when it raises ValueError; [py_str v] is [str(v)];
    [add_blank_choice] is the helper of nautobot.utilities.forms.
    [json_key name] tells whether the lookup [custom_field_data__<name>] is
    read as the key [name] of the JSON document: it is not when the name is
    the name of a lookup or transform, is an index, or contains the lookup
    separator.  [orm_exists path value rows] is the answer of
    [filter(custom_field_data__<path>=value).exists()] in that other case,
    a query the model does not look into. *)
Class Runtime : Type := {
  re_compiles : string -> bool;
  re_match : string -> string -> bool;
  strptime_ymd : string -> bool;
  int_of_str : string -> option Z;
  py_str : pyval -> string;
  add_blank_choice : list (option string * string) -> list (option string * string);
  json_key : string -> bool;
  orm_exists : string -> string -> list (dict pyval) -> bool
}.

(** ** Python operations that can raise *)

Section Builtins.
Context {rt : Runtime}.

(** [re.match(regex, value)], as a truth value. *)
Definition py_re_match (regex : string) (value : pyval) : M bool :=
  if negb (re_compiles regex) then raise ReError
  else match value with
       | PStr s => ret (re_match regex s)
       | _ => raise TypeError
       end.

(** [int(value)]; the source drops the number it returns.  An infinite
    float cannot be converted (OverflowError), nor can a NaN (ValueError). *)
Definition py_int (value : pyval) : M unit :=
  match value with
  | PBool _ | PInt _ | PFloat _ => ret tt
  | PStr s => match int_of_str s with
              | Some _ => ret tt
              | None => raise ValueError
              end
  | PInf _ => raise OverflowError
  | PNaN => raise ValueError
  | _ => raise TypeError
  end.

(** [value < n] for an int [n] *)
Definition py_lt (value : pyval) (n : Z) : M bool :=
  match value with
  | PBool b => ret (Z.ltb (Z.b2z b) n)
  | PInt z => ret (Z.ltb z n)
  | PFloat q => ret (negb (Qle_bool (inject_Z n) q))
  | PInf negative => ret negative
  | PNaN => ret false
  | _ => raise TypeError
  end.

(** [value > n] for an int [n] *)
Definition py_gt (value : pyval) (n : Z) : M bool :=
  match value with
  | PBool b => ret (Z.ltb n (Z.b2z b))
  | PInt z => ret (Z.ltb n z)
  | PFloat q => ret (negb (Qle_bool q (inject_Z n)))
  | PInf negative => ret (negb negative)
  | PNaN => ret false
  | _ => raise TypeError
  end.

(** [datetime.strptime(value, "%Y-%m-%d")]; the result is dropped. *)
Definition py_strptime (value : pyval) : M unit :=
  match value with
  | PStr s => if strptime_ymd s then ret tt else raise ValueError
  | _ => raise TypeError
  end.

Definition hashable (v : pyval) : bool :=
  match v with
  | PList _ | PDict _ => false
  | _ => true
  end.

(** [set(value)], as the list of its elements: the characters of a str, the
    elements of a list, the keys of a dict. *)
Definition py_set (value : pyval) : M (list pyval) :=
  match value with
  | PStr s => ret (map (fun c => PStr (String c "")) (list_ascii_of_string s))
  | PList l => if forallb hashable l then ret l else raise TypeError
  | PDict d => ret (map (fun kv => PStr (fst kv)) d)
  | _ => raise TypeError
  end.

(** [s in container] for a str [s] *)
Definition py_str_in (s : string) (container : pyval) : M bool :=
  match container with
  | PStr t => ret (substr_in s t)
  | PList l => ret (existsb (fun v => py_eq_str v s) l)
  | PDict d => ret (dict_mem s d)
  | _ => raise TypeError
  end.

End Builtins.

(** ** Strings of ASCII text *)

Fixpoint map_string (f : ascii -> ascii) (s : string) : string :=
  match s with
  | EmptyString => EmptyString
  | String c s' => String (f c) (map_string f s')
  end.

Definition upper (c : ascii) : ascii :=
  let n := nat_of_ascii c in
  if Nat.leb 97 n && Nat.leb n 122 then ascii_of_nat (n - 32) else c.

Definition lower (c : ascii) : ascii :=
  let n := nat_of_ascii c in
  if Nat.leb 65 n && Nat.leb n 90 then ascii_of_nat (n + 32) else c.

(** [s.replace(a, b)] for single characters *)
Definition replace (a b : ascii) (s : string) : string :=
  map_string (fun c => if Ascii.eqb c a then b else c) s.

(** [s.capitalize()] *)
Definition capitalize (s : string) : string :=
  match s with
  | EmptyString => EmptyString
  | String c s' => String (upper c) (map_string lower s')
  end.

(** ** Form fields *)

Inductive FieldClass : Type :=
| IntegerField | NullBooleanField | DateField | LaxURLField | CharField
| ChoiceField | CSVChoiceField | MultipleChoiceField | CSVMultipleChoiceField.

Inductive Widget : Type :=
| DefaultWidget
| StaticSelect2 (choices : list (pyval * string))
| DatePicker
| StaticSelect2Multiple.

Module FormField.
(** The attributes [to_form_field] gives a form field.  [regex_validator]
    is [Some r] when [validators] was replaced by [[RegexValidator(r)]]. *)
Record t : Type := {
  field_class : FieldClass;
  required : bool;
  initial : pyval;
  min_value : option Z;
  max_value : option Z;
  max_length : option Z;
  widget : Widget;
  choices : list (option string * string);
  regex_validator : option string;
  model : CustomField.t;
  label : string;
  help_text : string
}.
End FormField.

(** ** Querysets *)

Section Querysets.
Context {rt : Runtime}.
Import CustomField CustomFieldChoice.

(** [self.choices.all()] of a CustomField: the rows whose foreign key is it. *)
Definition choices_all (self : CustomField.t) (d : Database) : list row :=
  filter (fun r => Nat.eqb (field_id r) (CustomField.pk self)) (customfieldchoices d).

(** [self.choices.values_list("value", flat=True)] *)
Definition choices_values (self : CustomField.t) (d : Database) : list string :=
  map row_value (choices_all self d).

(** The text a CharField column is compared with in [filter(value=v)]: a
    str as it is, any other value through [str], and None with nothing (the
    lookup becomes IS NULL, which no row of the column meets). *)
Definition lookup_text (v : pyval) : option string :=
  match v with
  | PNone => None
  | PStr s => Some s
  | _ => Some (py_str v)
  end.

(** [self.choices.filter(value=v)]: the rows whose text equals the text [v]
    is compared as. *)
Definition choices_filter_value (self : CustomField.t) (v : pyval) (d : Database)
  : list row :=
  match lookup_text v with
  | Some s => filter (fun r => String.eqb (row_value r) s) (choices_all self d)
  | None => []
  end.

(** [self.content_types.values_list("pk", flat=True)] *)
Definition content_types_pks (self : CustomField.t) (d : Database) : list nat :=
  map snd (filter (fun p => Nat.eqb (fst p) (CustomField.pk self)) (content_types d)).

(** [CustomField.objects.get(pk=pk)] *)
Definition CustomField_objects_get (pk : nat) : M CustomField.t :=
  fun w =>
    match find (fun f => Nat.eqb (CustomField.pk f) pk) (customfields (db w)) with
    | Some f => (w, Ok f)
    | None => (w, Raise DoesNotExist)
    end.

(** [CustomFieldChoice.objects.get(pk=pk)] *)
Definition CustomFieldChoice_objects_get (pk : nat) : M row :=
  fun w =>
    match find (fun r => Nat.eqb (row_pk r) pk) (customfieldchoices (db w)) with
    | Some r => (w, Ok r)
    | None => (w, Raise DoesNotExist)
    end.

(** [CustomFieldManager.get_for_model]: the CustomFields assigned to the
    ContentType of the model. *)
Definition get_for_model (content_type : nat) (d : Database) : list CustomField.t :=
  filter
    (fun f => existsb (fun p => Nat.eqb (fst p) (CustomField.pk f) && Nat.eqb (snd p) content_type)
                      (content_types d))
    (customfields d).

(** [model.objects.filter(custom_field_data__<name>=value).exists()]: when
    the name is read as a key of the JSON document, some row holds the str
    [value] under that key; otherwise the lookup is another query. *)
Definition exists_exact (name value : string) (rows : list (dict pyval)) : bool :=
  if json_key name then
    existsb (fun data => match dict_get name data with
                         | Some v => py_eq_str v value
                         | None => false
                         end) rows
  else orm_exists name value rows.

(** JSON containment of a str: a list holding it, or the str itself. *)
Definition json_contains (v : pyval) (value : string) : bool :=
  match v with
  | PStr s => String.eqb s value
  | PList l => existsb (fun x => py_eq_str x value) l
  | _ => false
  end.

(** [model.objects.filter(custom_field_data__<name>__contains=value).exists()]:
    when the name is read as a key of the JSON document, some row holds
    under that key a JSON value that contains the str [value]; otherwise the
    lookup is another query. *)
Definition exists_contains (name value : string) (rows : list (dict pyval)) : bool :=
  if json_key name then
    existsb (fun data => match dict_get name data with
                         | Some v => json_contains v value
                         | None => false
                         end) rows
  else orm_exists (name ++ "__contains")%string value rows.

(** [set(l)] of primary keys, as a list without repetition. *)
Definition set_of (l : list nat) : list nat := nodup Nat.eq_dec l.

End Querysets.

(** ** CustomField *)

Section CustomFieldMethods.
Context {rt : Runtime}.
Import CustomField.

Definition is_not_None (v : pyval) : bool :=
  match v with PNone => false | _ => true end.

Definition is_Some {A} (o : option A) : bool :=
  match o with Some _ => true | None => false end.

(** [CustomField.validate]: validate a value according to the field's type
    validation rules. *)
Definition CustomField_validate (self : t) (value : pyval) : M unit :=
  if negb (is_empty value) then
    (* Validate text field *)
    when (type_eqb (type self) TYPE_TEXT && negb (String.eqb (validation_regex self) ""))
      (m <- py_re_match (validation_regex self) value ;;
       when (negb m)
         (raise (ValidationError None (MustMatchRegex (validation_regex self))))) ;;
    (* Validate integer *)
    when (type_eqb (type self) TYPE_INTEGER)
      (except_ValueError (py_int value) (raise (ValidationError None MustBeInteger)) ;;
       match validation_minimum self with
       | Some minimum =>
           below <- py_lt value minimum ;;
           when below (raise (ValidationError None (MustBeAtLeast minimum)))
       | None => ret tt
       end ;;
       match validation_maximum self with
       | Some maximum =>
           above <- py_gt value maximum ;;
           when above (raise (ValidationError None (MustNotExceed maximum)))
       | None => ret tt
       end) ;;
    (* Validate boolean *)
    when (type_eqb (type self) TYPE_BOOLEAN && negb (is_bool_like value))
      (raise (ValidationError None MustBeTrueOrFalse)) ;;
    (* Validate date *)
    when (type_eqb (type self) TYPE_DATE)
      (match value with
       | PDate _ _ _ => ret tt
       | _ => except_ValueError (py_strptime value)
                (raise (ValidationError None DateFormat))
       end) ;;
    (* Validate selected choice *)
    when (type_eqb (type self) TYPE_SELECT)
      (values <- query (choices_values self) ;;
       when (negb (in_strs value values))
         (available <- query (choices_values self) ;;
          raise (ValidationError None (InvalidChoice value (join ", " available))))) ;;
    when (type_eqb (type self) TYPE_MULTISELECT)
      (elements <- py_set value ;;
       values <- query (choices_values self) ;;
       when (negb (forallb (fun e => in_strs e values) elements))
         (available <- query (choices_values self) ;;
          raise (ValidationError None (InvalidChoices value (join ", " available)))))
  else
    when (required self) (raise (ValidationError None RequiredEmpty)).

(** [CustomField.clean] *)
Definition CustomField_clean (self : t) : M unit :=
  when (present_in_database self)
    ((* Check immutable fields *)
     database_object <- CustomField_objects_get (pk self) ;;
     when (negb (String.eqb (name self) (name database_object)))
       (raise (ValidationError (Some "name") NameImmutable)) ;;
     when (negb (type_eqb (type self) (type database_object)))
       (raise (ValidationError (Some "type") TypeImmutable))) ;;
  (* Validate the field's default value (if any) *)
  when (is_not_None (default self))
    (except_ValidationError (CustomField_validate self (default self))
       (fun message =>
          raise (ValidationError (Some "default") (InvalidDefault (default self) message)))) ;;
  (* Minimum/maximum values can be set only for numeric fields *)
  when (is_Some (validation_minimum self) && negb (type_eqb (type self) TYPE_INTEGER))
    (raise (ValidationError (Some "validation_minimum") MinimumOnlyNumeric)) ;;
  when (is_Some (validation_maximum self) && negb (type_eqb (type self) TYPE_INTEGER))
    (raise (ValidationError (Some "validation_maximum") MaximumOnlyNumeric)) ;;
  (* Regex validation can be set only for text fields *)
  when (negb (String.eqb (validation_regex self) "")
        && negb (type_eqb (type self) TYPE_TEXT || type_eqb (type self) TYPE_URL))
    (raise (ValidationError (Some "validation_regex") RegexOnlyText)) ;;
  (* Choices can be set only on selection fields *)
  has_choices <- query (fun d => match choices_all self d with [] => false | _ => true end) ;;
  when (has_choices
        && negb (type_eqb (type self) TYPE_SELECT || type_eqb (type self) TYPE_MULTISELECT))
    (raise (ValidationError None ChoicesOnlySelection)) ;;
  (* A selection field's default (if any) must be present in its available choices *)
  when (type_eqb (type self) TYPE_SELECT && truthy (default self))
    (values <- query (choices_values self) ;;
     when (negb (in_strs (default self) values))
       (raise (ValidationError (Some "default") (DefaultNotAChoice (default self))))).

(** [CustomField.__str__] *)
Definition CustomField_str (self : t) : string :=
  if negb (String.eqb (label self) "") then label self
  else capitalize (replace "_" " " (name self)).

(** [CustomField.to_form_field]: a form field suitable for setting the
    CustomField's value for an object. *)
Definition CustomField_to_form_field
    (self : t) (set_initial enforce_required for_csv_import : bool) : M FormField.t :=
  let initial := if set_initial then default self else PNone in
  let required := if enforce_required then required self else false in
  let finish cls initial min_value max_value max_length widget choices validator :=
    {| FormField.field_class := cls;
       FormField.required := required;
       FormField.initial := initial;
       FormField.min_value := min_value;
       FormField.max_value := max_value;
       FormField.max_length := max_length;
       FormField.widget := widget;
       FormField.choices := choices;
       FormField.regex_validator := validator;
       FormField.model := self;
       FormField.label := CustomField_str self;
       FormField.help_text :=
         if negb (String.eqb (description self) "") then description self else "" |} in
  (* Integer *)
  if type_eqb (type self) TYPE_INTEGER then
    ret (finish IntegerField initial (validation_minimum self) (validation_maximum self)
                None DefaultWidget [] None)
  (* Boolean *)
  else if type_eqb (type self) TYPE_BOOLEAN then
    let choices := [(PNone, "---------"); (PBool true, "True"); (PBool false, "False")] in
    ret (finish NullBooleanField initial None None None (StaticSelect2 choices) [] None)
  (* Date *)
  else if type_eqb (type self) TYPE_DATE then
    ret (finish DateField initial None None None DatePicker [] None)
  (* URL *)
  else if type_eqb (type self) TYPE_URL then
    ret (finish LaxURLField initial None None None DefaultWidget [] None)
  (* Text *)
  else if type_eqb (type self) TYPE_TEXT then
    ret (finish CharField initial None None (Some 255%Z) DefaultWidget []
                (if negb (String.eqb (validation_regex self) "")
                 then Some (validation_regex self) else None))
  (* Select or Multi-select *)
  else
    choices <- query (fun d => map (fun cfc => (Some (CustomFieldChoice.row_value cfc),
                                                CustomFieldChoice.row_value cfc))
                                   (choices_all self d)) ;;
    default_choice <- query (fun d => hd_error (choices_filter_value self (default self) d)) ;;
    let choices := if negb required || negb (is_Some default_choice)
                   then add_blank_choice choices else choices in
    (* Set the initial value to the first available choice (if any) *)
    let initial := match default_choice with
                   | Some cfc => if set_initial then PStr (CustomFieldChoice.row_value cfc)
                                 else initial
                   | None => initial
                   end in
    if type_eqb (type self) TYPE_SELECT then
      ret (finish (if for_csv_import then CSVChoiceField else ChoiceField)
                  initial None None None (StaticSelect2 []) choices None)
    else
      ret (finish (if for_csv_import then CSVMultipleChoiceField else MultipleChoiceField)
                  initial None None None StaticSelect2Multiple choices None).

(** [super().delete()] of a CustomField: the row goes, and with it its rows
    of the many-to-many table and, by [on_delete=CASCADE], its choices. *)
Definition Model_delete_CustomField (self : t) : M unit :=
  fun w =>
    let d := db w in
    ({| db := {| customfields :=
                   filter (fun f => negb (Nat.eqb (pk f) (pk self))) (customfields d);
                 content_types :=
                   filter (fun p => negb (Nat.eqb (fst p) (pk self))) (content_types d);
                 customfieldchoices :=
                   filter (fun r => negb (Nat.eqb (CustomFieldChoice.field_id r) (pk self)))
                          (customfieldchoices d);
                 objects := objects d |};
        effects := effects w ++ [Deleted extras_customfield (pk self)] |},
     Ok tt).

(** [CustomField.delete]: handle the cleanup of old custom field data when a
    CustomField is deleted. *)
Definition CustomField_delete (self : t) : M unit :=
  content_types <- query (fun d => set_of (content_types_pks self d)) ;;
  Model_delete_CustomField self ;;
  delay (delete_custom_field_data (name self) content_types).

End CustomFieldMethods.

(** ** CustomFieldChoice *)

Section CustomFieldChoiceMethods.
Context {rt : Runtime}.
Import CustomFieldChoice.

(** [CustomFieldChoice.clean] *)
Definition CustomFieldChoice_clean (self : t) : M unit :=
  when (negb (type_eqb (CustomField.type (field self)) TYPE_SELECT
              || type_eqb (CustomField.type (field self)) TYPE_MULTISELECT))
    (raise (ValidationError None ChoiceOnlySelection)).

(** [super().save()] of a CustomFieldChoice.  An instance that is not yet in
    the database is inserted, and its primary key must be new; one that is, is
    updated in place (or inserted when its row is gone).
    [unique_together = ["field", "value"]] refuses a second row with the same
    field and value.  The instance comes back marked as stored. *)
Definition unique_together_taken (self : t) (rows : list row) : bool :=
  existsb (fun r => negb (Nat.eqb (row_pk r) (pk self))
                    && Nat.eqb (field_id r) (CustomField.pk (field self))
                    && String.eqb (row_value r) (value self)) rows.

Definition Model_save_CustomFieldChoice (self : t) : M t :=
  fun w =>
    let d := db w in
    let rows := customfieldchoices d in
    let pk_taken := existsb (fun r => Nat.eqb (row_pk r) (pk self)) rows in
    if unique_together_taken self rows
       || (negb (present_in_database self) && pk_taken) then
      (w, Raise IntegrityError)
    else
      ({| db := {| customfields := customfields d;
                   content_types := content_types d;
                   customfieldchoices :=
                     if pk_taken
                     then map (fun r => if Nat.eqb (row_pk r) (pk self)
                                        then to_row self else r) rows
                     else rows ++ [to_row self];
                   objects := objects d |};
          effects := effects w ++ [Saved extras_customfieldchoice (pk self)] |},
       Ok {| pk := pk self; field := field self; value := value self;
             weight := weight self; present_in_database := true |}).

(** What the name [database_object] is bound to in [save]: a second object
    read from the database, or the instance itself. *)
Inductive database_object_ref : Type :=
| Fetched (r : row)
| Self.

(** [CustomFieldChoice.save]: when a custom field choice is saved, perform
    logic that will update data across all custom field data. *)
Definition CustomFieldChoice_save (self : t) : M unit :=
  database_object <-
    (if present_in_database self
     then r <- CustomFieldChoice_objects_get (pk self) ;; ret (Fetched r)
     else ret Self) ;;
  self <- Model_save_CustomFieldChoice self ;;
  let database_object_value :=
    match database_object with
    | Fetched r => row_value r
    | Self => value self
    end in
  when (negb (String.eqb (value self) database_object_value))
    (delay (update_custom_field_choice_data
              (CustomField.pk (field self)) database_object_value (value self))).

(** [super().delete()] of a CustomFieldChoice *)
Definition Model_delete_CustomFieldChoice (self : t) : M unit :=
  fun w =>
    let d := db w in
    ({| db := {| customfields := customfields d;
                 content_types := content_types d;
                 customfieldchoices :=
                   filter (fun r => negb (Nat.eqb (row_pk r) (pk self)))
                          (customfieldchoices d);
                 objects := objects d |};
        effects := effects w ++ [Deleted extras_customfieldchoice (pk self)] |},
     Ok tt).

(** The first block of [CustomFieldChoice.delete]: a choice that is the
    default value cannot be deleted. *)
Definition default_protection (self : t) : M unit :=
  when (truthy (CustomField.default (field self)))
    ((* Cannot delete the choice if it is the default value. *)
     if type_eqb (CustomField.type (field self)) TYPE_SELECT
        && py_eq_str (CustomField.default (field self)) (value self)
     then raise (ProtectedError IsDefaultValue)
     else
       inside <- py_str_in (value self) (CustomField.default (field self)) ;;
       when inside (raise (ProtectedError IsOneOfDefaultValues))).

(** The second block of [CustomFieldChoice.delete]: a choice in active use
    cannot be deleted. *)
Definition active_use_protection (self : t) : M unit :=
  if type_eqb (CustomField.type (field self)) TYPE_SELECT then
    (* Check if this value is in active use in a select field *)
    cts <- query (content_types_pks (field self)) ;;
    for_each cts (fun ct =>
      in_use <- query (fun d => exists_exact (CustomField.name (field self))
                                             (value self) (objects d ct)) ;;
      when in_use (raise (ProtectedError InActiveUse)))
  else
    (* Check if this value is in active use in a multi-select field *)
    cts <- query (content_types_pks (field self)) ;;
    for_each cts (fun ct =>
      in_use <- query (fun d => exists_contains (CustomField.name (field self))
                                                (value self) (objects d ct)) ;;
      when in_use (raise (ProtectedError InActiveUse))).

(** [CustomFieldChoice.delete]: when a custom field choice is deleted, remove
    references to in custom field data. *)
Definition CustomFieldChoice_delete (self : t) : M unit :=
  default_protection self ;;
  active_use_protection self ;;
  Model_delete_CustomFieldChoice self.

End CustomFieldChoiceMethods.

(** ** CustomFieldModel *)

Section CustomFieldModelMethods.
Context {rt : Runtime}.
Import CustomFieldModel.

(** [{cf.name: cf for cf in fields}] *)
Definition by_name (fields : list CustomField.t) : dict CustomField.t :=
  fold_left (fun acc cf => dict_set (CustomField.name cf) cf acc) fields [].

(** [CustomFieldModel.clean] *)
Definition CustomFieldModel_clean (self : t) : M unit :=
  custom_fields <- query (fun d => by_name (get_for_model (content_type self) d)) ;;
  (* Validate all field values *)
  for_each (custom_field_data self) (fun item =>
    let '(field_name, value) := item in
    match dict_get field_name custom_fields with
    | None => raise (ValidationError None (UnknownFieldName field_name))
    | Some cf =>
        except_ValidationError (CustomField_validate cf value)
          (fun message => raise (ValidationError None (InvalidValue field_name message)))
    end) ;;
  (* Check for missing required values *)
  for_each (dict_values custom_fields) (fun cf =>
    when (CustomField.required cf
          && negb (dict_mem (CustomField.name cf) (custom_field_data self)))
      (raise (ValidationError None (MissingRequired (CustomField.name cf))))).

(** [self.custom_field_data.get(name)]: the stored value, or None. *)
Definition dict_get_or_None (name : string) (d : dict pyval) : pyval :=
  match dict_get name d with
  | Some v => v
  | None => PNone
  end.

(** [d[field] = value] in an OrderedDict keyed by model instances, which are
    equal when their primary keys are: a key that is there keeps its place
    and its key object and takes the new value. *)
Fixpoint ordered_dict_set (field : CustomField.t) (value : pyval)
    (d : list (CustomField.t * pyval)) : list (CustomField.t * pyval) :=
  match d with
  | [] => [(field, value)]
  | (f, v) :: d' =>
      if Nat.eqb (CustomField.pk field) (CustomField.pk f) then (f, value) :: d'
      else (f, v) :: ordered_dict_set field value d'
  end.

(** [CustomFieldModel.cf]: convenience wrapper for custom field data. *)
Definition CustomFieldModel_cf (self : t) : dict pyval := custom_field_data self.

(** [CustomFieldModel.get_custom_fields]: the custom fields for a single
    object, in the form {<field>: value}. *)
Definition CustomFieldModel_get_custom_fields (self : t)
  : M (list (CustomField.t * pyval)) :=
  fields <- query (get_for_model (content_type self)) ;;
  ret (fold_left
         (fun acc field =>
            ordered_dict_set field
              (dict_get_or_None (CustomField.name field) (custom_field_data self)) acc)
         fields []).

End CustomFieldModelMethods.

(** ** Sample data *)

(** A runtime for the examples: every pattern compiles and matches the texts
    it is a prefix of, a date is any text of ten characters, [int] reads
    decimal digits, the blank choice goes first, a name is a key of the JSON
    document unless it is empty, an index, a lookup name or holds the lookup
    separator, and the other queries find nothing. *)
Definition digits_value (s : string) : option Z :=
  match s with
  | EmptyString => None
  | _ =>
      (fix go (s : string) (acc : Z) : option Z :=
         match s with
         | EmptyString => Some acc
         | String c s' =>
             let n := nat_of_ascii c in
             if Nat.leb 48 n && Nat.leb n 57
             then go s' (10 * acc + Z.of_nat (n - 48))%Z
             else None
         end) s 0%Z
  end.

(** [str] for the examples: None, a bool, an int and a str as Python prints
    them, and a list of str that need no escaping; the rest is not used. *)
Definition example_str (v : pyval) : string :=
  match v with
  | PNone => "None"
  | PBool true => "True"
  | PBool false => "False"
  | PInt z => NilZero.string_of_int (Z.to_int z)
  | PStr s => s
  | PList l =>
      ("[" ++ join ", " (map (fun x => match x with
                                       | PStr s => ("'" ++ s ++ "'")%string
                                       | _ => ""
                                       end) l) ++ "]")%string
  | _ => ""
  end.

(** The names of the lookups of a JSONField, for the examples. *)
Definition example_lookup_names : list string :=
  ["exact"; "iexact"; "contains"; "icontains"; "in"; "gt"; "gte"; "lt"; "lte";
   "startswith"; "istartswith"; "endswith"; "iendswith"; "range"; "isnull";
   "regex"; "iregex"; "contained_by"; "has_key"; "has_keys"; "has_any_keys"].

Definition all_digits (s : string) : bool :=
  forallb (fun c => let n := nat_of_ascii c in Nat.leb 48 n && Nat.leb n 57)
          (list_ascii_of_string s).

Definition example_runtime : Runtime :=
  {| re_compiles := fun _ => true;
     re_match := fun p s => String.prefix p s;
     strptime_ymd := fun s => Nat.eqb (String.length s) 10;
     int_of_str := digits_value;
     py_str := example_str;
     add_blank_choice := fun choices => (None, "---------") :: choices;
     json_key := fun name =>
       negb (String.eqb name "") && negb (all_digits name)
       && negb (substr_in "__" name)
       && negb (existsb (String.eqb name) example_lookup_names);
     orm_exists := fun _ _ _ => false |}.

(** A field of the given type with nothing else set. *)
Definition plain_field (pk : nat) (name : string) (type : CustomFieldTypeChoices)
  : CustomField.t :=
  {| CustomField.pk := pk;
     CustomField.type := type;
     CustomField.name := name;
     CustomField.label := "";
     CustomField.description := "";
     CustomField.required := false;
     CustomField.filter_logic := "loose";
     CustomField.default := PNone;
     CustomField.weight := 100;
     CustomField.validation_minimum := None;
     CustomField.validation_maximum := None;
     CustomField.validation_regex := "";
     CustomField.present_in_database := true |}.

(** "priority": integer, required, between 1 and 5. *)
Definition priority_field : CustomField.t :=
  {| CustomField.pk := 1;
     CustomField.type := TYPE_INTEGER;
     CustomField.name := "priority";
     CustomField.label := "";
     CustomField.description := "";
     CustomField.required := true;
     CustomField.filter_logic := "loose";
     CustomField.default := PNone;
     CustomField.weight := 100;
     CustomField.validation_minimum := Some 1%Z;
     CustomField.validation_maximum := Some 5%Z;
     CustomField.validation_regex := "";
     CustomField.present_in_database := true |}.

(** "tier": select, default "golden", with the choices "gold" and "golden". *)
Definition tier_field : CustomField.t :=
  {| CustomField.pk := 2;
     CustomField.type := TYPE_SELECT;
     CustomField.name := "tier";
     CustomField.label := "";
     CustomField.description := "";
     CustomField.required := true;
     CustomField.filter_logic := "loose";
     CustomField.default := PStr "golden";
     CustomField.weight := 100;
     CustomField.validation_minimum := None;
     CustomField.validation_maximum := None;
     CustomField.validation_regex := "";
     CustomField.present_in_database := true |}.

Definition gold_row : CustomFieldChoice.row :=
  {| CustomFieldChoice.row_pk := 10; CustomFieldChoice.field_id := 2;
     CustomFieldChoice.row_value := "gold"; CustomFieldChoice.row_weight := 100 |}.

Definition golden_row : CustomFieldChoice.row :=
  {| CustomFieldChoice.row_pk := 11; CustomFieldChoice.field_id := 2;
     CustomFieldChoice.row_value := "golden"; CustomFieldChoice.row_weight := 100 |}.

(** The choice "gold" of "tier", as an instance read from the database. *)
Definition gold_choice : CustomFieldChoice.t :=
  {| CustomFieldChoice.pk := 10; CustomFieldChoice.field := tier_field;
     CustomFieldChoice.value := "gold"; CustomFieldChoice.weight := 100;
     CustomFieldChoice.present_in_database := true |}.

(** Both fields apply to the ContentTypes 7 and 8; one object of 8 stores
    "golden" as its tier, and none stores "gold". *)
Definition example_db : Database :=
  {| customfields := [priority_field; tier_field];
     content_types := [(1, 7); (2, 7); (1, 8); (2, 8)];
     customfieldchoices := [gold_row; golden_row];
     objects := fun ct => if Nat.eqb ct 8
                          then [[("priority", PInt 3); ("tier", PStr "golden")]]
                          else [] |}.

Definition example_world : World := {| db := example_db; effects := [] |}.

(** The choice "silver" of "tier", not yet saved. *)
Definition silver_choice : CustomFieldChoice.t :=
  {| CustomFieldChoice.pk := 12; CustomFieldChoice.field := tier_field;
     CustomFieldChoice.value := "silver"; CustomFieldChoice.weight := 100;
     CustomFieldChoice.present_in_database := false |}.

(** The stored choice "gold" with its value edited to "or". *)
Definition renamed_choice : CustomFieldChoice.t :=
  {| CustomFieldChoice.pk := 10; CustomFieldChoice.field := tier_field;
     CustomFieldChoice.value := "or"; CustomFieldChoice.weight := 100;
     CustomFieldChoice.present_in_database := true |}.

(** "priority" as an edited instance whose name was changed to "urgency". *)
Definition renamed_priority_field : CustomField.t :=
  {| CustomField.pk := 1;
     CustomField.type := TYPE_INTEGER;
     CustomField.name := "urgency";
     CustomField.label := "";
     CustomField.description := "";
     CustomField.required := true;
     CustomField.filter_logic := "loose";
     CustomField.default := PNone;
     CustomField.weight := 100;
     CustomField.validation_minimum := Some 1%Z;
     CustomField.validation_maximum := Some 5%Z;
     CustomField.validation_regex := "";
     CustomField.present_in_database := true |}.

(** ** Notions of the specification *)

(** The result is the specification's ImmutableFieldError. *)
Definition ImmutableFieldError (r : result unit) : Prop :=
  exists key, r = Raise (ValidationError key NameImmutable)
              \/ r = Raise (ValidationError key TypeImmutable).

(** The contract [validate(fieldDefinition, value) -> ok | ValidationError]:
    the result is one of the two. *)
Definition ok_or_ValidationError (r : result unit) : Prop :=
  r = Ok tt \/ exists key msg, r = Raise (ValidationError key msg).

(** "Losslessly convertible to an integer", following the specification: the
    integer a value stands for, if it stands for one.  An int (or bool) is
    its own value, a float converts when it has no fractional part, a text
    when [int] reads it. *)
Definition lossless_integer {rt : Runtime} (v : pyval) : option Z :=
  match v with
  | PBool b => Some (Z.b2z b)
  | PInt z => Some z
  | PFloat q => if Qeq_bool q (inject_Z (Qfloor q)) then Some (Qfloor q) else None
  | PStr s => int_of_str s
  | _ => None
  end.

(** The specification's ChoiceIsDefaultError and ChoiceInUseError. *)
Definition ChoiceIsDefaultError : exn -> Prop :=
  fun e => e = ProtectedError IsDefaultValue \/ e = ProtectedError IsOneOfDefaultValues.

Definition ChoiceInUseError : exn := ProtectedError InActiveUse.

(** A bag stores the entry's value for the field: exact match for a select
    field, containment for a multi-select field. *)
Definition bag_stores (type : CustomFieldTypeChoices) (name value : string)
    (data : dict pyval) : bool :=
  match dict_get name data with
  | Some v =>
      match type with
      | TYPE_SELECT => py_eq_str v value
      | TYPE_MULTISELECT => json_contains v value
      | _ => false
      end
  | None => false
  end.

(** Some object of some ContentType the owning field applies to stores the
    entry's value. *)
Definition stored_by_some_object (self : CustomFieldChoice.t) (d : Database) : Prop :=
  let f := CustomFieldChoice.field self in
  exists ct data,
    In (CustomField.pk f, ct) (content_types d)
    /\ In data (objects d ct)
    /\ bag_stores (CustomField.type f) (CustomField.name f)
                  (CustomFieldChoice.value self) data = true.

(** "color": select, no default, with the choices "red" and "blue"; it
    applies to the ContentTypes 7 and 8, and an object of 8 stores "red". *)
Definition color_field : CustomField.t := plain_field 6 "color" TYPE_SELECT.

Definition red_choice : CustomFieldChoice.t :=
  {| CustomFieldChoice.pk := 20; CustomFieldChoice.field := color_field;
     CustomFieldChoice.value := "red"; CustomFieldChoice.weight := 100;
     CustomFieldChoice.present_in_database := true |}.

Definition blue_choice : CustomFieldChoice.t :=
  {| CustomFieldChoice.pk := 21; CustomFieldChoice.field := color_field;
     CustomFieldChoice.value := "blue"; CustomFieldChoice.weight := 100;
     CustomFieldChoice.present_in_database := true |}.

Definition color_world : World :=
  {| db := {| customfields := [color_field];
              content_types := [(6, 7); (6, 8)];
              customfieldchoices := [CustomFieldChoice.to_row red_choice;
                                     CustomFieldChoice.to_row blue_choice];
              objects := fun ct => if Nat.eqb ct 8 then [[("color", PStr "red")]]
                                   else [[]] |};
     effects := [] |}.

(** The result reports the violation [msg]. *)
Definition reports (r : result unit) (msg : Message) : Prop :=
  exists key, r = Raise (ValidationError key msg).

(** A world where the required "priority" and the optional "count" apply to
    the ContentType 9, and two objects of that type: the bag of the first
    holds the stray key "bogus" only, the bag of the second a valid "count"
    and then "bogus"; both lack "priority". *)
Definition count_field : CustomField.t := plain_field 3 "count" TYPE_INTEGER.

Definition bag_world : World :=
  {| db := {| customfields := [priority_field; count_field];
              content_types := [(1, 9); (3, 9)];
              customfieldchoices := [];
              objects := fun _ => [] |};
     effects := [] |}.

Definition stray_object : CustomFieldModel.t :=
  {| CustomFieldModel.content_type := 9;
     CustomFieldModel.custom_field_data := [("bogus", PInt 1)] |}.

Definition counted_stray_object : CustomFieldModel.t :=
  {| CustomFieldModel.content_type := 9;
     CustomFieldModel.custom_field_data := [("count", PInt 2); ("bogus", PInt 1)] |}.

(** ** Notions for reasoning about methods *)

(** The method leaves the world as it found it. *)
Definition readonly {A} (m : M A) : Prop := forall w, world_after m w = w.

(** Every exception the method can raise satisfies [P]. *)
Definition raises_only {A} (P : exn -> Prop) (m : M A) : Prop :=
  forall w w' e, m w = (w', Raise e) -> P e.

(** ** Notions for the further properties *)

(** The errors of [validate]: a ValidationError without a key, a TypeError,
    the OverflowError of [int], or the error of a pattern that does not
    compile. *)
Definition validate_error (e : exn) : Prop :=
  e = TypeError \/ e = OverflowError \/ e = ReError
  \/ exists msg, e = ValidationError None msg.

(** "homepage", a URL field, and "tags", a multi-select field with the
    choices "a" and "b". *)
Definition homepage_field : CustomField.t := plain_field 30 "homepage" TYPE_URL.

Definition tags_field : CustomField.t := plain_field 4 "tags" TYPE_MULTISELECT.

Definition tags_world : World :=
  {| db := {| customfields := [tags_field];
              content_types := [(4, 7)];
              customfieldchoices :=
                [ {| CustomFieldChoice.row_pk := 40; CustomFieldChoice.field_id := 4;
                     CustomFieldChoice.row_value := "a";
                     CustomFieldChoice.row_weight := 100 |};
                  {| CustomFieldChoice.row_pk := 41; CustomFieldChoice.field_id := 4;
                     CustomFieldChoice.row_value := "b";
                     CustomFieldChoice.row_weight := 100 |} ];
              objects := fun _ => [] |};
     effects := [] |}.

(** What [CustomField.clean] does after its first block, the check of the
    immutable fields: the same statements, in the same order. *)
Definition clean_after_immutable_fields {rt : Runtime} (self : CustomField.t) : M unit :=
  when (is_not_None (CustomField.default self))
    (except_ValidationError (CustomField_validate self (CustomField.default self))
       (fun message =>
          raise (ValidationError (Some "default")
                   (InvalidDefault (CustomField.default self) message)))) ;;
  when (is_Some (CustomField.validation_minimum self)
        && negb (type_eqb (CustomField.type self) TYPE_INTEGER))
    (raise (ValidationError (Some "validation_minimum") MinimumOnlyNumeric)) ;;
  when (is_Some (CustomField.validation_maximum self)
        && negb (type_eqb (CustomField.type self) TYPE_INTEGER))
    (raise (ValidationError (Some "validation_maximum") MaximumOnlyNumeric)) ;;
  when (negb (String.eqb (CustomField.validation_regex self) "")
        && negb (type_eqb (CustomField.type self) TYPE_TEXT
                 || type_eqb (CustomField.type self) TYPE_URL))
    (raise (ValidationError (Some "validation_regex") RegexOnlyText)) ;;
  has_choices <- query (fun d => match choices_all self d with [] => false | _ => true end) ;;
  when (has_choices
        && negb (type_eqb (CustomField.type self) TYPE_SELECT
                 || type_eqb (CustomField.type self) TYPE_MULTISELECT))
    (raise (ValidationError None ChoicesOnlySelection)) ;;
  when (type_eqb (CustomField.type self) TYPE_SELECT && truthy (CustomField.default self))
    (values <- query (choices_values self) ;;
     when (negb (in_strs (CustomField.default self) values))
       (raise (ValidationError (Some "default")
                 (DefaultNotAChoice (CustomField.default self))))).

(** The constraints a CustomField must meet to pass [clean], apart from the
    immutable fields. *)
Definition field_constraints {rt : Runtime} (self : CustomField.t) (w : World) : Prop :=
  (CustomField.default self = PNone
   \/ outcome (CustomField_validate self (CustomField.default self)) w = Ok tt)
  /\ (CustomField.validation_minimum self <> None -> CustomField.type self = TYPE_INTEGER)
  /\ (CustomField.validation_maximum self <> None -> CustomField.type self = TYPE_INTEGER)
  /\ (CustomField.validation_regex self <> "" ->
      CustomField.type self = TYPE_TEXT \/ CustomField.type self = TYPE_URL)
  /\ (choices_all self (db w) <> [] ->
      CustomField.type self = TYPE_SELECT \/ CustomField.type self = TYPE_MULTISELECT).

(** The immutable fields of an instance agree with its stored row, or the
    instance is new. *)
Definition immutable_fields_kept (self : CustomField.t) (w : World) : Prop :=
  CustomField.present_in_database self = false
  \/ exists stored,
       find (fun f => Nat.eqb (CustomField.pk f) (CustomField.pk self)) (customfields (db w))
       = Some stored
       /\ CustomField.name self = CustomField.name stored
       /\ CustomField.type self = CustomField.type stored.

(** The default, as [clean] judges it. *)
Definition default_judged {rt : Runtime} (self : CustomField.t) (w : World) : result unit :=
  if is_not_None (CustomField.default self) then
    match outcome (CustomField_validate self (CustomField.default self)) w with
    | Ok _ => Ok tt
    | Raise (ValidationError _ message) =>
        Raise (ValidationError (Some "default")
                 (InvalidDefault (CustomField.default self) message))
    | Raise e => Raise e
    end
  else Ok tt.

(** The database after the row of a choice has been written: updated in
    place when a row has its primary key, added at the end otherwise. *)
Definition db_with_choice (self : CustomFieldChoice.t) (d : Database) : Database :=
  {| customfields := customfields d;
     content_types := content_types d;
     customfieldchoices :=
       if existsb (fun r => Nat.eqb (CustomFieldChoice.row_pk r) (CustomFieldChoice.pk self))
                  (customfieldchoices d)
       then map (fun r => if Nat.eqb (CustomFieldChoice.row_pk r) (CustomFieldChoice.pk self)
                          then CustomFieldChoice.to_row self else r)
                (customfieldchoices d)
       else customfieldchoices d ++ [CustomFieldChoice.to_row self];
     objects := objects d |}.

(** The constraints of the table of choices: primary keys are unique, and so
    are the pairs of field and value ([unique_together]). *)
Definition choices_unique (rows : list CustomFieldChoice.row) : Prop :=
  NoDup (map CustomFieldChoice.row_pk rows)
  /\ NoDup (map (fun r => (CustomFieldChoice.field_id r, CustomFieldChoice.row_value r)) rows).

(** The pair that [unique_together] constrains. *)
Definition pair_of (r : CustomFieldChoice.row) : nat * string :=
  (CustomFieldChoice.field_id r, CustomFieldChoice.row_value r).

(** A second, unsaved choice "gold" of "tier", and an instance marked as
    stored that has no row. *)
Definition clashing_choice : CustomFieldChoice.t :=
  {| CustomFieldChoice.pk := 13; CustomFieldChoice.field := tier_field;
     CustomFieldChoice.value := "gold"; CustomFieldChoice.weight := 100;
     CustomFieldChoice.present_in_database := false |}.

Definition orphan_choice : CustomFieldChoice.t :=
  {| CustomFieldChoice.pk := 99; CustomFieldChoice.field := tier_field;
     CustomFieldChoice.value := "bronze"; CustomFieldChoice.weight := 100;
     CustomFieldChoice.present_in_database := true |}.

(** Objects of the ContentType 9: one with a valid "count" and no
    "priority", one whose "priority" is out of bounds. *)
Definition counted_object : CustomFieldModel.t :=
  {| CustomFieldModel.content_type := 9;
     CustomFieldModel.custom_field_data := [("count", PInt 2)] |}.

Definition urgent_object : CustomFieldModel.t :=
  {| CustomFieldModel.content_type := 9;
     CustomFieldModel.custom_field_data := [("count", PInt 2); ("priority", PInt 9)] |}.

Definition complete_object : CustomFieldModel.t :=
  {| CustomFieldModel.content_type := 9;
     CustomFieldModel.custom_field_data := [("count", PInt 2); ("priority", PInt 3)] |}.

Definition prioritized_object : CustomFieldModel.t :=
  {| CustomFieldModel.content_type := 9;
     CustomFieldModel.custom_field_data := [("priority", PInt 3); ("count", PInt 2)] |}.

(** The entry is protected as a default, in the words of the specification:
    the default of its single-select field equals its value, or the default
    list of its multi-select field has its value as a member. *)
Definition protected_as_default (self : CustomFieldChoice.t) : Prop :=
  let f := CustomFieldChoice.field self in
  (CustomField.type f = TYPE_SELECT
   /\ CustomField.default f = PStr (CustomFieldChoice.value self))
  \/ (CustomField.type f = TYPE_MULTISELECT
      /\ exists l, CustomField.default f = PList l
                   /\ In (PStr (CustomFieldChoice.value self)) l).

(** "labels": multi-select, with the number 5 stored as its default and the
    choice "a"; it applies to the ContentType 7, which has no object. *)
Definition labels_field : CustomField.t :=
  {| CustomField.pk := 50;
     CustomField.type := TYPE_MULTISELECT;
     CustomField.name := "labels";
     CustomField.label := "";
     CustomField.description := "";
     CustomField.required := false;
     CustomField.filter_logic := "loose";
     CustomField.default := PInt 5;
     CustomField.weight := 100;
     CustomField.validation_minimum := None;
     CustomField.validation_maximum := None;
     CustomField.validation_regex := "";
     CustomField.present_in_database := true |}.

Definition labelled_choice : CustomFieldChoice.t :=
  {| CustomFieldChoice.pk := 51; CustomFieldChoice.field := labels_field;
     CustomFieldChoice.value := "a"; CustomFieldChoice.weight := 100;
     CustomFieldChoice.present_in_database := true |}.

Definition labels_world : World :=
  {| db := {| customfields := [labels_field];
              content_types := [(50, 7)];
              customfieldchoices := [CustomFieldChoice.to_row labelled_choice];
              objects := fun _ => [] |};
     effects := [] |}.

(** "letters": multi-select, with the default ['a'] and the choices "a" and
    "['a']"; it applies to the ContentType 7, which has no object. *)
Definition letters_field : CustomField.t :=
  {| CustomField.pk := 60;
     CustomField.type := TYPE_MULTISELECT;
     CustomField.name := "letters";
     CustomField.label := "";
     CustomField.description := "";
     CustomField.required := false;
     CustomField.filter_logic := "loose";
     CustomField.default := PList [PStr "a"];
     CustomField.weight := 100;
     CustomField.validation_minimum := None;
     CustomField.validation_maximum := None;
     CustomField.validation_regex := "";
     CustomField.present_in_database := true |}.

Definition letters_world : World :=
  {| db := {| customfields := [letters_field];
              content_types := [(60, 7)];
              customfieldchoices :=
                [ {| CustomFieldChoice.row_pk := 61; CustomFieldChoice.field_id := 60;
                     CustomFieldChoice.row_value := "a";
                     CustomFieldChoice.row_weight := 100 |};
                  {| CustomFieldChoice.row_pk := 62; CustomFieldChoice.field_id := 60;
                     CustomFieldChoice.row_value := "['a']";
                     CustomFieldChoice.row_weight := 100 |} ];
              objects := fun _ => [] |};
     effects := [] |}.

(** * Properties *)

Lemma type_eqb_spec a b : reflect (a = b) (type_eqb a b).
Proof. destruct a, b; simpl; constructor; congruence. Qed.

Lemma type_eqb_refl a : type_eqb a a = true.
Proof. now destruct a. Qed.

Lemma py_eq_str_true v s : py_eq_str v s = true <-> v = PStr s.
Proof.
  destruct v; simpl; split; try discriminate.
  - intros H. apply String.eqb_eq in H. now subst.
  - intros H. injection H as ->. apply String.eqb_refl.
Qed.

(** ** Tables *)

Section Tables.
Variables (A : Type) (key : A -> nat).

Lemma find_removed (k : nat) (l : list A) :
  find (fun a => Nat.eqb (key a) k)
       (filter (fun a => negb (Nat.eqb (key a) k)) l) = None.
Proof.
  induction l as [|a l IH]; simpl; [reflexivity|].
  destruct (Nat.eqb (key a) k) eqn:E; simpl; [exact IH|].
  now rewrite E.
Qed.

Lemma filter_removed (k : nat) (l : list A) :
  filter (fun a => Nat.eqb (key a) k)
         (filter (fun a => negb (Nat.eqb (key a) k)) l) = [].
Proof.
  induction l as [|a l IH]; simpl; [reflexivity|].
  destruct (Nat.eqb (key a) k) eqn:E; simpl; [exact IH|].
  now rewrite E.
Qed.

Lemma find_replaced (k : nat) (new : A) (l : list A) (old : A) :
  key new = k ->
  find (fun a => Nat.eqb (key a) k) l = Some old ->
  find (fun a => Nat.eqb (key a) k)
       (map (fun a => if Nat.eqb (key a) k then new else a) l) = Some new.
Proof.
  intros Hnew. induction l as [|a l IH]; simpl; [discriminate|].
  destruct (Nat.eqb (key a) k) eqn:E; simpl.
  - intros _. now rewrite Hnew, Nat.eqb_refl.
  - rewrite E. exact IH.
Qed.

Lemma find_some_existsb (k : nat) (l : list A) (a : A) :
  find (fun a => Nat.eqb (key a) k) l = Some a ->
  existsb (fun a => Nat.eqb (key a) k) l = true.
Proof.
  intros H. apply find_some in H. apply existsb_exists. now exists a.
Qed.

End Tables.

(** ** Deleting a CustomField *)

(** C8: [CustomField.delete] reads the set of ContentType keys of the field
    from the state before the deletion, then removes the row (after which the
    field has no row and no ContentType left), then enqueues
    [delete_custom_field_data] with the field's name and exactly that set. *)
Theorem CustomField_delete_purges_captured_types
    (self : CustomField.t) (w : World) :
  let captured := set_of (content_types_pks self (db w)) in
  let w' := world_after (CustomField_delete self) w in
  outcome (CustomField_delete self) w = Ok tt
  /\ effects w' =
       effects w ++ [Deleted extras_customfield (CustomField.pk self);
                     Delayed (delete_custom_field_data (CustomField.name self) captured)]
  /\ (forall ct, In ct captured <-> In (CustomField.pk self, ct) (content_types (db w)))
  /\ NoDup captured
  /\ find (fun f => Nat.eqb (CustomField.pk f) (CustomField.pk self))
          (customfields (db w')) = None
  /\ content_types_pks self (db w') = [].
Proof.
  unfold CustomField_delete, outcome, world_after, bind, query,
    Model_delete_CustomField, delay; simpl.
  repeat split.
  - now rewrite <- app_assoc.
  - unfold set_of, content_types_pks. rewrite nodup_In, in_map_iff.
    intros [[f c] [Hc Hin]]. simpl in Hc. subst c.
    apply filter_In in Hin as [Hin Hf]. simpl in Hf.
    apply Nat.eqb_eq in Hf. now subst f.
  - intros Hin. unfold set_of, content_types_pks. rewrite nodup_In, in_map_iff.
    exists (CustomField.pk self, ct). split; [reflexivity|].
    apply filter_In. split; [exact Hin|]. simpl. apply Nat.eqb_refl.
  - apply NoDup_nodup.
  - apply (find_removed _ CustomField.pk).
  - unfold content_types_pks. simpl.
    now rewrite (filter_removed _ (@fst nat nat)).
Qed.

(** ** Saving a CustomFieldChoice *)

Section ChoiceSave.
Import CustomFieldChoice.

(** C10: saving a choice that is not yet in the database enqueues no task,
    whatever its value and whether or not the insertion succeeds: the only
    effect that can be added is the insertion itself. *)
Theorem CustomFieldChoice_save_created_enqueues_nothing (self : t) (w : World) :
  present_in_database self = false ->
  exists added,
    effects (world_after (CustomFieldChoice_save self) w) = effects w ++ added
    /\ forall task, ~ In (Delayed task) added.
Proof.
  intros Hnew.
  unfold CustomFieldChoice_save, world_after, bind, ret, Model_save_CustomFieldChoice.
  rewrite Hnew. simpl.
  destruct (unique_together_taken self _ || _).
  - exists []. simpl. rewrite app_nil_r. split; [reflexivity | tauto].
  - simpl. rewrite String.eqb_refl. simpl.
    exists [Saved extras_customfieldchoice (pk self)].
    split; [reflexivity|].
    intros task [H | []]. discriminate.
Qed.

Lemma CustomFieldChoice_save_created_enqueues_nothing_witness :
  present_in_database silver_choice = false
  /\ exists added,
       effects (world_after (CustomFieldChoice_save silver_choice) example_world)
       = effects example_world ++ added
       /\ forall task, ~ In (Delayed task) added.
Proof.
  split; [reflexivity|].
  apply (CustomFieldChoice_save_created_enqueues_nothing silver_choice example_world).
  reflexivity.
Defined.

(** C7: saving a choice that is in the database, when the write itself is
    accepted, first stores the row and then enqueues one
    [update_custom_field_choice_data] task exactly when the value differs
    from the one of the row read before the write; that stored value is the
    task's old value and the instance's value its new one. *)
Theorem CustomFieldChoice_save_update_enqueues_rewrite
    (self : t) (stored : row) (w : World) :
  present_in_database self = true ->
  find (fun r => Nat.eqb (row_pk r) (pk self)) (customfieldchoices (db w)) = Some stored ->
  unique_together_taken self (customfieldchoices (db w)) = false ->
  let w' := world_after (CustomFieldChoice_save self) w in
  outcome (CustomFieldChoice_save self) w = Ok tt
  /\ find (fun r => Nat.eqb (row_pk r) (pk self)) (customfieldchoices (db w'))
     = Some (to_row self)
  /\ effects w' =
       effects w ++
       Saved extras_customfieldchoice (pk self) ::
       (if String.eqb (value self) (row_value stored) then []
        else [Delayed (update_custom_field_choice_data
                         (CustomField.pk (field self)) (row_value stored) (value self))]).
Proof.
  intros Hdb Hget Huniq.
  pose proof (find_some_existsb _ row_pk _ _ _ Hget) as Htaken.
  unfold CustomFieldChoice_save, outcome, world_after, bind, ret,
    CustomFieldChoice_objects_get, Model_save_CustomFieldChoice.
  rewrite Hdb, Hget, Huniq, Htaken. simpl.
  pose proof (find_replaced _ row_pk _ (to_row self) _ _ eq_refl Hget) as Hnew.
  simpl in Hnew.
  destruct (String.eqb (value self) (row_value stored)); simpl;
    unfold delay, ret; simpl.
  - split; [reflexivity | split; [exact Hnew | reflexivity]].
  - split; [reflexivity | split; [exact Hnew | now rewrite <- app_assoc]].
Qed.

Lemma CustomFieldChoice_save_update_enqueues_rewrite_witness :
  let w' := world_after (CustomFieldChoice_save renamed_choice) example_world in
  present_in_database renamed_choice = true
  /\ find (fun r => Nat.eqb (row_pk r) 10) (customfieldchoices example_db) = Some gold_row
  /\ unique_together_taken renamed_choice (customfieldchoices example_db) = false
  /\ outcome (CustomFieldChoice_save renamed_choice) example_world = Ok tt
  /\ find (fun r => Nat.eqb (row_pk r) 10) (customfieldchoices (db w'))
     = Some (to_row renamed_choice)
  /\ effects w' =
       [Saved extras_customfieldchoice 10;
        Delayed (update_custom_field_choice_data 2 "gold" "or")].
Proof.
  split; [reflexivity | split; [reflexivity | split; [reflexivity|]]].
  apply (CustomFieldChoice_save_update_enqueues_rewrite
           renamed_choice gold_row example_world); reflexivity.
Defined.

End ChoiceSave.

(** ** Methods that only read *)

Lemma readonly_ret {A} (a : A) : readonly (ret a).
Proof. intros w. reflexivity. Qed.

Lemma readonly_raise {A} (e : exn) : readonly (@raise A e).
Proof. intros w. reflexivity. Qed.

Lemma readonly_query {A} (q : Database -> A) : readonly (query q).
Proof. intros w. reflexivity. Qed.

Lemma readonly_bind {A B} (m : M A) (k : A -> M B) :
  readonly m -> (forall a, readonly (k a)) -> readonly (bind m k).
Proof.
  intros Hm Hk w. unfold world_after, bind.
  specialize (Hm w). unfold world_after in Hm.
  destruct (m w) as [w1 [a | e]]; simpl in *; subst w1; [apply Hk | reflexivity].
Qed.

Lemma readonly_when (c : bool) (m : M unit) : readonly m -> readonly (when c m).
Proof. intros Hm. destruct c; simpl; [exact Hm | apply readonly_ret]. Qed.

Lemma readonly_for_each {A} (l : list A) (body : A -> M unit) :
  (forall x, readonly (body x)) -> readonly (for_each l body).
Proof.
  intros Hbody. induction l as [|x l IH]; simpl.
  - apply readonly_ret.
  - apply readonly_bind; [apply Hbody | intros _; exact IH].
Qed.

Lemma readonly_except_ValueError {A} (m handler : M A) :
  readonly m -> readonly handler -> readonly (except_ValueError m handler).
Proof.
  intros Hm Hh w. unfold world_after, except_ValueError.
  specialize (Hm w). unfold world_after in Hm.
  destruct (m w) as [w1 [a | []]]; simpl in *; subst w1; try reflexivity.
  apply Hh.
Qed.

Lemma readonly_except_ValidationError {A} (m : M A) (handler : Message -> M A) :
  readonly m -> (forall msg, readonly (handler msg)) ->
  readonly (except_ValidationError m handler).
Proof.
  intros Hm Hh w. unfold world_after, except_ValidationError.
  specialize (Hm w). unfold world_after in Hm.
  destruct (m w) as [w1 [a | []]]; simpl in *; subst w1; try reflexivity.
  apply Hh.
Qed.

Section ReadonlyBuiltins.
Context {rt : Runtime}.

Lemma readonly_py_re_match regex value : readonly (py_re_match regex value).
Proof. intros w. unfold py_re_match. destruct (re_compiles regex), value; reflexivity. Qed.

Lemma readonly_py_int value : readonly (py_int value).
Proof.
  intros w. unfold py_int. destruct value; try reflexivity.
  destruct (int_of_str s); reflexivity.
Qed.

Lemma readonly_py_lt value n : readonly (py_lt value n).
Proof. intros w. destruct value; reflexivity. Qed.

Lemma readonly_py_gt value n : readonly (py_gt value n).
Proof. intros w. destruct value; reflexivity. Qed.

Lemma readonly_py_strptime value : readonly (py_strptime value).
Proof.
  intros w. unfold py_strptime. destruct value; try reflexivity.
  destruct (strptime_ymd s); reflexivity.
Qed.

Lemma readonly_py_set value : readonly (py_set value).
Proof.
  intros w. unfold py_set. destruct value; try reflexivity.
  destruct (forallb hashable l); reflexivity.
Qed.

Lemma readonly_py_str_in s container : readonly (py_str_in s container).
Proof. intros w. destruct container; reflexivity. Qed.

End ReadonlyBuiltins.

Create HintDb readonly.
#[export] Hint Resolve readonly_ret readonly_raise readonly_query readonly_when
  readonly_for_each readonly_except_ValueError readonly_except_ValidationError
  readonly_py_re_match readonly_py_int readonly_py_lt readonly_py_gt
  readonly_py_strptime readonly_py_set readonly_py_str_in : readonly.

Ltac readonly_step :=
  match goal with
  | |- readonly (bind _ _) => apply readonly_bind; [| intros ?]
  | |- readonly (if ?c then _ else _) => destruct c
  | |- readonly (match ?x with _ => _ end) => destruct x
  | |- readonly _ => solve [auto with readonly]
  | |- readonly (when _ _) => apply readonly_when
  | |- readonly (except_ValueError _ _) => apply readonly_except_ValueError
  | |- readonly (except_ValidationError _ _) =>
      apply readonly_except_ValidationError; [| intros ?]
  | |- readonly (for_each _ _) => apply readonly_for_each; intros ?
  end.

Section ReadonlyMethods.
Context {rt : Runtime}.

Lemma CustomField_validate_readonly self value :
  readonly (CustomField_validate self value).
Proof. unfold CustomField_validate. repeat readonly_step. Qed.

Lemma CustomField_objects_get_readonly pk : readonly (CustomField_objects_get pk).
Proof.
  intros w. unfold world_after, CustomField_objects_get.
  destruct (find _ _); reflexivity.
Qed.

Lemma CustomField_clean_readonly self : readonly (CustomField_clean self).
Proof.
  pose proof CustomField_validate_readonly.
  pose proof CustomField_objects_get_readonly.
  unfold CustomField_clean. repeat readonly_step.
Qed.

Lemma CustomFieldModel_clean_readonly self : readonly (CustomFieldModel_clean self).
Proof.
  pose proof CustomField_validate_readonly.
  unfold CustomFieldModel_clean. repeat readonly_step.
Qed.

Lemma CustomField_to_form_field_readonly self set_initial enforce_required for_csv_import :
  readonly (CustomField_to_form_field self set_initial enforce_required for_csv_import).
Proof. unfold CustomField_to_form_field. repeat readonly_step. Qed.

Lemma default_protection_readonly self : readonly (default_protection self).
Proof. unfold default_protection. repeat readonly_step. Qed.

Lemma active_use_protection_readonly self : readonly (active_use_protection self).
Proof. unfold active_use_protection. repeat readonly_step. Qed.

End ReadonlyMethods.

(** ** The exceptions a method can raise *)

Lemma raises_only_ret {A} P (a : A) : raises_only P (ret a).
Proof. intros w w' e H. discriminate. Qed.

Lemma raises_only_query {A} P (q : Database -> A) : raises_only P (query q).
Proof. intros w w' e H. discriminate. Qed.

Lemma raises_only_raise {A} (P : exn -> Prop) e : P e -> raises_only P (@raise A e).
Proof. intros He w w' e' H. injection H as _ <-. exact He. Qed.

Lemma raises_only_bind {A B} P (m : M A) (k : A -> M B) :
  raises_only P m -> (forall a, raises_only P (k a)) -> raises_only P (bind m k).
Proof.
  intros Hm Hk w w' e. unfold bind.
  destruct (m w) as [w1 [a | e1]] eqn:E.
  - apply Hk.
  - intros H. injection H as _ <-. exact (Hm _ _ _ E).
Qed.

Lemma raises_only_when P c (m : M unit) :
  raises_only P m -> raises_only P (when c m).
Proof. intros Hm. destruct c; simpl; [exact Hm | apply raises_only_ret]. Qed.

(** Whatever the guarded call raises, the handler's errors and the errors
    that are no ValidationError are all that can come out. *)
Lemma raises_only_except_ValidationError {A} (P : exn -> Prop)
    (m : M A) (handler : Message -> M A) :
  (forall e, (forall key msg, e <> ValidationError key msg) -> P e) ->
  (forall msg, raises_only P (handler msg)) ->
  raises_only P (except_ValidationError m handler).
Proof.
  intros Hother Hh w w' e. unfold except_ValidationError.
  destruct (m w) as [w1 [a | e1]]; [discriminate|].
  destruct e1; try (intros H; injection H as _ <-; apply Hother; discriminate).
  apply Hh.
Qed.

Ltac raises_step :=
  match goal with
  | |- raises_only _ (bind _ _) => apply raises_only_bind; [| intros ?]
  | |- raises_only _ (when _ _) => apply raises_only_when
  | |- raises_only _ (ret _) => apply raises_only_ret
  | |- raises_only _ (query _) => apply raises_only_query
  | |- raises_only _ (raise _) => apply raises_only_raise
  | |- raises_only _ (except_ValidationError _ _) =>
      apply raises_only_except_ValidationError; [intros ? ? | intros ?]
  end.

(** ** Cleaning a CustomField *)

Section CustomFieldClean.
Context {rt : Runtime}.
Import CustomField.

(** C2: for a field that is already stored, [clean] changes nothing in the
    database, fails with the name error when the name differs from the
    stored row, with the type error when the name agrees and the type
    differs, and with neither when both agree. *)
Theorem CustomField_clean_name_and_type_immutable
    (self stored : t) (w : World) :
  present_in_database self = true ->
  find (fun f => Nat.eqb (pk f) (pk self)) (customfields (db w)) = Some stored ->
  world_after (CustomField_clean self) w = w
  /\ (name self <> name stored ->
      outcome (CustomField_clean self) w
      = Raise (ValidationError (Some "name") NameImmutable))
  /\ (name self = name stored -> type self <> type stored ->
      outcome (CustomField_clean self) w
      = Raise (ValidationError (Some "type") TypeImmutable))
  /\ (name self = name stored -> type self = type stored ->
      ~ ImmutableFieldError (outcome (CustomField_clean self) w)).
Proof.
  intros Hdb Hget. split; [apply CustomField_clean_readonly|].
  assert (Hstart : forall rest : M unit,
             bind (when (present_in_database self)
                     (bind (CustomField_objects_get (pk self)) (fun database_object =>
                        bind (when (negb (String.eqb (name self) (name database_object)))
                                (raise (ValidationError (Some "name") NameImmutable)))
                             (fun _ =>
                                when (negb (type_eqb (type self) (type database_object)))
                                  (raise (ValidationError (Some "type") TypeImmutable))))))
                  (fun _ => rest) w
             = if negb (String.eqb (name self) (name stored))
               then (w, Raise (ValidationError (Some "name") NameImmutable))
               else if negb (type_eqb (type self) (type stored))
                    then (w, Raise (ValidationError (Some "type") TypeImmutable))
                    else rest w).
  { intros rest. rewrite Hdb. unfold when at 1.
    unfold bind at 1 2. unfold CustomField_objects_get. rewrite Hget.
    unfold bind.
    destruct (String.eqb (name self) (name stored)); [|reflexivity].
    destruct (type_eqb (type self) (type stored)); reflexivity. }
  unfold CustomField_clean, outcome. rewrite Hstart. clear Hstart.
  split; [|split].
  - intros Hname. apply String.eqb_neq in Hname. rewrite Hname. reflexivity.
  - intros Hname Htype. rewrite Hname, String.eqb_refl.
    destruct (type_eqb_spec (type self) (type stored)); [contradiction | reflexivity].
  - intros Hname Htype. rewrite Hname, Htype, String.eqb_refl, type_eqb_refl.
    simpl negb. cbv iota.
    match goal with |- ~ ImmutableFieldError (snd (?rest w)) =>
      assert (Hrest : raises_only (fun e => ~ ImmutableFieldError (Raise e)) rest)
    end.
    { repeat raises_step;
        try (intros [k [Hk | Hk]]; discriminate).
      intros [k [Hk | Hk]]; injection Hk as Hk;
        match goal with Hne : forall key msg, _ <> _ |- _ => exact (Hne _ _ Hk) end. }
    match goal with |- ~ ImmutableFieldError (snd (?rest w)) =>
      destruct (rest w) as [w1 [[] | e]] eqn:E
    end; simpl.
    + intros [k [H | H]]; discriminate.
    + exact (Hrest _ _ _ E).
Qed.

End CustomFieldClean.

Lemma CustomField_clean_name_and_type_immutable_witness :
  CustomField.present_in_database renamed_priority_field = true
  /\ find (fun f => Nat.eqb (CustomField.pk f) 1) (customfields example_db)
     = Some priority_field
  /\ outcome (@CustomField_clean example_runtime renamed_priority_field) example_world
     = Raise (ValidationError (Some "name") NameImmutable).
Proof.
  split; [reflexivity | split; [reflexivity|]].
  apply (@CustomField_clean_name_and_type_immutable example_runtime
           renamed_priority_field priority_field example_world);
    [reflexivity | reflexivity | discriminate].
Defined.

(** ** Validating a value *)

Section CustomFieldValidate.
Context {rt : Runtime}.
Import CustomField.

(** C3, on the code: [validate] lets a TypeError escape.  An integer field
    given a list fails in [int], which is guarded against ValueError only; a
    multi-select field given a number fails in [set]; a date field given a
    number fails in [strptime].  None of the three results is a success or a
    ValidationError. *)
Theorem CustomField_validate_lets_TypeError_escape (w : World) :
  outcome (CustomField_validate (plain_field 3 "count" TYPE_INTEGER) (PList [PInt 7])) w
  = Raise TypeError
  /\ outcome (CustomField_validate (plain_field 4 "tags" TYPE_MULTISELECT) (PInt 5)) w
     = Raise TypeError
  /\ outcome (CustomField_validate (plain_field 5 "since" TYPE_DATE) (PInt 5)) w
     = Raise TypeError
  /\ ~ ok_or_ValidationError
        (outcome (CustomField_validate (plain_field 3 "count" TYPE_INTEGER)
                    (PList [PInt 7])) w).
Proof.
  repeat split; try reflexivity.
  intros [H | [key [msg H]]]; discriminate.
Qed.

(** A text that [int] reads, compared with a bound, is a TypeError too. *)
Lemma CustomField_validate_text_against_bound (self : t) (s : string) (z minimum : Z) (w : World) :
  type self = TYPE_INTEGER ->
  validation_minimum self = Some minimum ->
  int_of_str s = Some z ->
  s <> "" ->
  outcome (CustomField_validate self (PStr s)) w = Raise TypeError.
Proof.
  intros Hty Hmin Hint Hne.
  unfold CustomField_validate, outcome.
  destruct s as [|c s]; [contradiction|].
  rewrite Hty, Hmin. simpl.
  unfold bind, except_ValueError, py_int. rewrite Hint. reflexivity.
Qed.

(** On int values an integer field does check the inclusive bounds. *)
Lemma CustomField_validate_integer_int (self : t) (z : Z) (w : World) :
  type self = TYPE_INTEGER ->
  outcome (CustomField_validate self (PInt z)) w = Ok tt
  <-> (forall minimum, validation_minimum self = Some minimum -> (minimum <= z)%Z)
      /\ (forall maximum, validation_maximum self = Some maximum -> (z <= maximum)%Z).
Proof.
  intros Hty. unfold CustomField_validate, outcome. rewrite Hty. simpl.
  unfold bind, except_ValueError, when. simpl.
  destruct (validation_minimum self) as [lo|];
    destruct (validation_maximum self) as [hi|]; simpl.
  all: repeat match goal with
              | |- context [Z.ltb ?a ?b] => destruct (Z.ltb_spec a b); simpl
              end.
  all: split;
    [ intros Hok; try discriminate Hok;
      split; intros bound Hbound; inversion Hbound; subst; lia
    | intros [Hlo Hhi]; try reflexivity; exfalso;
      try specialize (Hlo _ eq_refl); try specialize (Hhi _ eq_refl); lia ].
Qed.

(** C4, on the code: an integer field accepts 3.5, which is no integer:
    [int(3.5)] returns, its result is dropped, and 3.5 lies between the
    bounds 1 and 5. *)
Theorem CustomField_validate_integer_accepts_fraction (w : World) :
  lossless_integer (PFloat (7 # 2)) = None
  /\ outcome (CustomField_validate (plain_field 3 "count" TYPE_INTEGER) (PFloat (7 # 2))) w
     = Ok tt
  /\ outcome (CustomField_validate priority_field (PFloat (7 # 2))) w = Ok tt.
Proof. repeat split. Qed.

End CustomFieldValidate.

(** ** Deleting a CustomFieldChoice *)

Section ChoiceDelete.
Context {rt : Runtime}.
Import CustomFieldChoice.

(** C5, on the code: the choice "gold" of the select field "tier", whose
    default is "golden", is refused as one of the default values although the
    default is another value and no object stores "gold": for a select field
    that passes the equality test, the [elif] looks for the value inside the
    default, which for two texts is a substring search. *)
Theorem CustomFieldChoice_delete_refuses_substring_of_default :
  CustomField.type (field gold_choice) = TYPE_SELECT
  /\ CustomField.default (field gold_choice) <> PStr (value gold_choice)
  /\ ~ stored_by_some_object gold_choice example_db
  /\ CustomFieldChoice_delete gold_choice example_world
     = (example_world, Raise (ProtectedError IsOneOfDefaultValues)).
Proof.
  split; [reflexivity | split; [discriminate | split; [| reflexivity]]].
  intros (ct & data & Hct & Hdata & Hstores). simpl in Hct.
  destruct Hct as [H | [H | [H | [H | []]]]]; inversion H; subst ct; simpl in Hdata.
  - contradiction.
  - destruct Hdata as [<- | []]. discriminate.
Qed.

(** The protected cases are refused, and nothing is deleted. *)
Lemma CustomFieldChoice_delete_default_refused (self : t) (w : World) :
  (CustomField.type (field self) = TYPE_SELECT
   /\ CustomField.default (field self) = PStr (value self) /\ value self <> "")
  \/ (CustomField.type (field self) = TYPE_MULTISELECT
      /\ exists l, CustomField.default (field self) = PList l /\ In (PStr (value self)) l) ->
  exists e, ChoiceIsDefaultError e /\ CustomFieldChoice_delete self w = (w, Raise e).
Proof.
  unfold CustomFieldChoice_delete, default_protection, ChoiceIsDefaultError.
  intros [(Hty & Hdef & Hne) | (Hty & l & Hdef & Hin)]; rewrite Hty, Hdef; simpl.
  - apply String.eqb_neq in Hne. rewrite Hne, String.eqb_refl. simpl.
    eexists. split; [left; reflexivity | reflexivity].
  - assert (Hex : existsb (fun v => py_eq_str v (value self)) l = true).
    { apply existsb_exists. exists (PStr (value self)). split; [exact Hin|].
      simpl. apply String.eqb_refl. }
    destruct l as [|x l]; [destruct Hin|].
    unfold bind, py_str_in, ret. rewrite Hex. simpl.
    eexists. split; [right; reflexivity | reflexivity].
Qed.

(** The default check lets a choice through when the field has no default,
    and when the default of a multi-select field is a list without it. *)
Lemma default_protection_lets_through (self : t) (w : World) :
  truthy (CustomField.default (field self)) = false
  \/ (CustomField.type (field self) = TYPE_MULTISELECT
      /\ exists l, CustomField.default (field self) = PList l
                   /\ ~ In (PStr (value self)) l) ->
  outcome (default_protection self) w = Ok tt.
Proof.
  unfold default_protection, outcome.
  intros [Hnone | (Hty & l & Hdef & Hnotin)].
  - now rewrite Hnone.
  - rewrite Hty, Hdef. simpl.
    assert (Hex : existsb (fun v => py_eq_str v (value self)) l = false).
    { destruct (existsb _ l) eqn:E; [|reflexivity].
      apply existsb_exists in E as (v & Hin & Hv).
      apply py_eq_str_true in Hv. subst v. contradiction. }
    destruct l; [reflexivity|].
    unfold when, bind, py_str_in, ret. now rewrite Hex.
Qed.

(** A loop that raises at the first element for which a query holds. *)
Lemma for_each_guard {A} (l : list A) (q : A -> Database -> bool) (e : exn) (w : World) :
  for_each l (fun x => bind (query (q x)) (fun b => when b (raise e))) w
  = if existsb (fun x => q x (db w)) l then (w, Raise e) else (w, Ok tt).
Proof.
  induction l as [|x l IH]; simpl; [reflexivity|].
  unfold bind at 1. unfold query at 1. unfold bind at 1. simpl.
  destruct (q x (db w)); simpl; [reflexivity | exact IH].
Qed.

Lemma active_use_protection_run (self : t) (w : World) :
  CustomField.type (field self) = TYPE_SELECT
  \/ CustomField.type (field self) = TYPE_MULTISELECT ->
  json_key (CustomField.name (field self)) = true ->
  active_use_protection self w
  = if existsb (fun ct => existsb (bag_stores (CustomField.type (field self))
                                              (CustomField.name (field self)) (value self))
                                  (objects (db w) ct))
               (content_types_pks (field self) (db w))
    then (w, Raise (ProtectedError InActiveUse)) else (w, Ok tt).
Proof.
  intros Hty Hkey. unfold active_use_protection, exists_exact, exists_contains.
  rewrite Hkey.
  destruct Hty as [Hty | Hty]; rewrite Hty; simpl;
    unfold bind at 1; unfold query at 1; rewrite for_each_guard; reflexivity.
Qed.

Lemma stored_by_some_object_existsb (self : t) (d : Database) :
  stored_by_some_object self d
  <-> existsb (fun ct => existsb (bag_stores (CustomField.type (field self))
                                             (CustomField.name (field self)) (value self))
                                 (objects d ct))
              (content_types_pks (field self) d) = true.
Proof.
  unfold stored_by_some_object, content_types_pks. rewrite existsb_exists. split.
  - intros (ct & data & Hct & Hdata & Hst). exists ct. split.
    + apply in_map_iff. exists (CustomField.pk (field self), ct). split; [reflexivity|].
      apply filter_In. split; [exact Hct | apply Nat.eqb_refl].
    + apply existsb_exists. now exists data.
  - intros (ct & Hct & Hex). apply in_map_iff in Hct as ([f c] & Hc & Hin).
    simpl in Hc. subst c. apply filter_In in Hin as [Hin Hf]. simpl in Hf.
    apply Nat.eqb_eq in Hf. subst f.
    apply existsb_exists in Hex as (data & Hdata & Hst). now exists ct, data.
Qed.

(** When the default check lets a choice of a select or multi-select field
    through, and the name of the field is read as a key of the JSON
    document, [delete] looks at the objects of every ContentType of the
    field: if one of them stores the value, it fails with the in-use error
    and the world is as before; if none does, it succeeds and the row of the
    choice is gone, the other rows staying as they were. *)
Lemma CustomFieldChoice_delete_scan_when_let_through (self : t) (w : World) :
  CustomField.type (field self) = TYPE_SELECT
  \/ CustomField.type (field self) = TYPE_MULTISELECT ->
  json_key (CustomField.name (field self)) = true ->
  outcome (default_protection self) w = Ok tt ->
  (stored_by_some_object self (db w) ->
     CustomFieldChoice_delete self w = (w, Raise ChoiceInUseError))
  /\ (~ stored_by_some_object self (db w) ->
      let w' := world_after (CustomFieldChoice_delete self) w in
      outcome (CustomFieldChoice_delete self) w = Ok tt
      /\ customfieldchoices (db w')
         = filter (fun r => negb (Nat.eqb (row_pk r) (pk self))) (customfieldchoices (db w))
      /\ find (fun r => Nat.eqb (row_pk r) (pk self)) (customfieldchoices (db w')) = None).
Proof.
  intros Hty Hkey Hpass.
  assert (Hfirst : default_protection self w = (w, Ok tt)).
  { pose proof (default_protection_readonly self w) as Hw.
    unfold outcome in Hpass. unfold world_after in Hw.
    destruct (default_protection self w) as [w1 r]. simpl in *. now subst. }
  assert (Hrun : CustomFieldChoice_delete self w
                 = if existsb (fun ct =>
                                 existsb (bag_stores (CustomField.type (field self))
                                                     (CustomField.name (field self))
                                                     (value self))
                                         (objects (db w) ct))
                              (content_types_pks (field self) (db w))
                   then (w, Raise (ProtectedError InActiveUse))
                   else Model_delete_CustomFieldChoice self w).
  { unfold CustomFieldChoice_delete. unfold bind at 1. rewrite Hfirst.
    unfold bind. rewrite (active_use_protection_run self w Hty Hkey).
    destruct (existsb _ _); reflexivity. }
  unfold outcome, world_after. rewrite Hrun.
  rewrite stored_by_some_object_existsb.
  destruct (existsb _ (content_types_pks (field self) (db w))); split.
  - reflexivity.
  - intros H. now contradiction H.
  - discriminate.
  - intros _. simpl. repeat split. apply (find_removed _ row_pk).
Qed.

(** C6, on the code: a choice that is not protected as a default and that no
    object stores is not always deleted.  The choice "gold" of the select
    field "tier", whose default is "golden", is not the default and is stored
    nowhere, yet [delete] neither raises the in-use error nor deletes: the
    default check refuses it, and its row is still there.  The choice "a" of
    the multi-select field "labels", whose default is the number 5, is no
    member of a default list and is stored nowhere, yet [delete] raises a
    TypeError, from looking for the value inside the number. *)
Theorem CustomFieldChoice_delete_keeps_unprotected_unused_choice :
  ~ protected_as_default gold_choice
  /\ ~ stored_by_some_object gold_choice (db example_world)
  /\ outcome (CustomFieldChoice_delete gold_choice) example_world <> Ok tt
  /\ outcome (CustomFieldChoice_delete gold_choice) example_world <> Raise ChoiceInUseError
  /\ find (fun r => Nat.eqb (row_pk r) (pk gold_choice))
          (customfieldchoices
             (db (world_after (CustomFieldChoice_delete gold_choice) example_world)))
     = Some gold_row
  /\ ~ protected_as_default labelled_choice
  /\ ~ stored_by_some_object labelled_choice (db labels_world)
  /\ CustomFieldChoice_delete labelled_choice labels_world = (labels_world, Raise TypeError).
Proof.
  split; [| split; [| split; [discriminate | split; [discriminate | split; [reflexivity |
    split; [| split; [| reflexivity]]]]]]].
  - intros [[_ H] | [H _]]; discriminate.
  - intros (ct & data & Hct & Hdata & Hstores). simpl in Hct.
    destruct Hct as [H | [H | [H | [H | []]]]]; inversion H; subst ct; simpl in Hdata.
    + contradiction.
    + destruct Hdata as [<- | []]. discriminate.
  - intros [[H _] | (_ & l & H & _)]; discriminate.
  - intros (ct & data & _ & Hdata & _). destruct Hdata.
Qed.

End ChoiceDelete.

Lemma CustomFieldChoice_delete_scan_when_let_through_witness :
  (CustomField.type (CustomFieldChoice.field red_choice) = TYPE_SELECT
   \/ CustomField.type (CustomFieldChoice.field red_choice) = TYPE_MULTISELECT)
  /\ @json_key example_runtime (CustomField.name (CustomFieldChoice.field red_choice)) = true
  /\ outcome (default_protection red_choice) color_world = Ok tt
  /\ stored_by_some_object red_choice (db color_world)
  /\ @CustomFieldChoice_delete example_runtime red_choice color_world
     = (color_world, Raise ChoiceInUseError).
Proof.
  assert (Hstored : stored_by_some_object red_choice (db color_world)).
  { exists 8, [("color", PStr "red")].
    split; [right; left; reflexivity | split; [left; reflexivity | reflexivity]]. }
  split; [left; reflexivity | split; [reflexivity | split; [reflexivity |
    split; [exact Hstored|]]]].
  apply (@CustomFieldChoice_delete_scan_when_let_through example_runtime red_choice
           color_world);
    [left; reflexivity | reflexivity | reflexivity | exact Hstored].
Defined.

(** ** The form field of a CustomField *)

Section FormProjection.
Context {rt : Runtime}.
Import CustomField.

Lemma hd_error_In {A} (l : list A) (a : A) : hd_error l = Some a -> In a l.
Proof. destruct l; simpl; [discriminate | intros [= ->]; now left]. Qed.

Lemma lookup_text_found (self : t) (v : pyval) (d : Database) (cfc : CustomFieldChoice.row) :
  hd_error (choices_filter_value self v d) = Some cfc ->
  lookup_text v = Some (CustomFieldChoice.row_value cfc).
Proof.
  intros Hhd. apply hd_error_In in Hhd. unfold choices_filter_value in Hhd.
  destruct (lookup_text v) as [s|]; [| destruct Hhd].
  apply filter_In in Hhd as [_ Heq]. apply String.eqb_eq in Heq. now rewrite Heq.
Qed.

(** With [set_initial] the form field's initial value is the field's default
    when the field is no select or multi-select field, and for those when
    the default is None or a str: the choice found for a str carries that
    str as its value. *)
Lemma CustomField_to_form_field_initial_of_text_default
    (self : t) (enforce_required for_csv_import : bool) (w : World) :
  (type self <> TYPE_SELECT /\ type self <> TYPE_MULTISELECT)
  \/ default self = PNone
  \/ (exists s, default self = PStr s) ->
  exists form_field,
    CustomField_to_form_field self true enforce_required for_csv_import w
    = (w, Ok form_field)
    /\ FormField.initial form_field = default self.
Proof.
  intros Hdefault. unfold CustomField_to_form_field.
  destruct (type self) eqn:Hty; simpl;
    try (eexists; split; [reflexivity | reflexivity]);
    (destruct Hdefault as [[Hs Hm] | Hdefault]; [congruence |]);
    unfold bind, query, ret; simpl;
    (destruct (hd_error (choices_filter_value self (default self) (db w)))
       as [cfc|] eqn:Hhd;
     (eexists; split; [reflexivity | simpl]); [| reflexivity]);
    apply lookup_text_found in Hhd;
    destruct Hdefault as [Hnone | [s Hs]].
  all: try (rewrite Hnone in Hhd; discriminate).
  all: rewrite Hs in Hhd |- *; simpl in Hhd; congruence.
Qed.

(** C9, on the code: the initial value is not the default for every default
    that passes validation.  The
    multi-select field "letters" has the choices "a" and "['a']" and the
    default ['a'], which passes [validate]; the query for the choice whose
    value is the default compares the column with the text of the list, so
    it finds the choice "['a']", and the form field built with [set_initial]
    has the str "['a']" as its initial value, not the list. *)
Theorem CustomField_to_form_field_initial_is_text_of_list_default
    (enforce_required for_csv_import : bool) :
  py_str (PList [PStr "a"]) = "['a']" ->
  outcome (CustomField_validate letters_field (default letters_field)) letters_world = Ok tt
  /\ exists form_field,
       CustomField_to_form_field letters_field true enforce_required for_csv_import
                                 letters_world
       = (letters_world, Ok form_field)
       /\ FormField.initial form_field = PStr "['a']"
       /\ FormField.initial form_field <> default letters_field.
Proof.
  intros Hstr. split; [reflexivity |].
  unfold CustomField_to_form_field, bind, query, ret, choices_filter_value. simpl.
  rewrite Hstr. simpl.
  eexists; split; [reflexivity | split; [reflexivity | discriminate]].
Qed.

End FormProjection.

Lemma CustomField_to_form_field_initial_of_text_default_witness :
  ((CustomField.type tier_field <> TYPE_SELECT
    /\ CustomField.type tier_field <> TYPE_MULTISELECT)
   \/ CustomField.default tier_field = PNone
   \/ (exists s, CustomField.default tier_field = PStr s))
  /\ exists form_field,
       @CustomField_to_form_field example_runtime tier_field true true false example_world
       = (example_world, Ok form_field)
       /\ FormField.initial form_field = CustomField.default tier_field.
Proof.
  assert (H : (CustomField.type tier_field <> TYPE_SELECT
               /\ CustomField.type tier_field <> TYPE_MULTISELECT)
              \/ CustomField.default tier_field = PNone
              \/ (exists s, CustomField.default tier_field = PStr s)).
  { right; right. exists "golden"%string. reflexivity. }
  split; [exact H |].
  exact (@CustomField_to_form_field_initial_of_text_default example_runtime tier_field
           true false example_world H).
Defined.

Lemma CustomField_to_form_field_initial_is_text_of_list_default_witness :
  @py_str example_runtime (PList [PStr "a"]) = "['a']"%string
  /\ outcome (@CustomField_validate example_runtime letters_field
                (CustomField.default letters_field)) letters_world = Ok tt
  /\ exists form_field,
       @CustomField_to_form_field example_runtime letters_field true true false
                                  letters_world
       = (letters_world, Ok form_field)
       /\ FormField.initial form_field = PStr "['a']"
       /\ FormField.initial form_field <> CustomField.default letters_field.
Proof.
  split; [reflexivity |].
  exact (@CustomField_to_form_field_initial_is_text_of_list_default example_runtime
           true false eq_refl).
Defined.

(** ** Cleaning the custom field data of an object *)

Section BagClean.
Context {rt : Runtime}.
Import CustomFieldModel.

Lemma for_each_stops {A} (before after : list A) (x : A) (body : A -> M unit)
    (e : exn) (w : World) :
  (forall y, In y before -> body y w = (w, Ok tt)) ->
  body x w = (w, Raise e) ->
  for_each (before ++ x :: after) body w = (w, Raise e).
Proof.
  intros Hbefore Hx. induction before as [|y before IH]; simpl.
  - unfold bind. now rewrite Hx.
  - unfold bind at 1. rewrite (Hbefore y (or_introl eq_refl)).
    apply IH. intros z Hz. apply Hbefore. now right.
Qed.

(** C1, as the code has it: [clean] stops at the first violation.  When the
    bag holds a key that names no applicable field, and the keys before it
    name applicable fields and hold valid values, the one error raised is the
    unknown-field error of that key; no missing required field is reported
    in that call, whether or not one is missing. *)
Theorem CustomFieldModel_clean_stops_at_unknown_key
    (self : t) (w : World) (before after : dict pyval)
    (field_name : string) (value : pyval) :
  let custom_fields := by_name (get_for_model (content_type self) (db w)) in
  custom_field_data self = before ++ (field_name, value) :: after ->
  dict_get field_name custom_fields = None ->
  (forall k v, In (k, v) before ->
     exists cf, dict_get k custom_fields = Some cf
                /\ outcome (CustomField_validate cf v) w = Ok tt) ->
  CustomFieldModel_clean self w
  = (w, Raise (ValidationError None (UnknownFieldName field_name)))
  /\ forall name, ~ reports (outcome (CustomFieldModel_clean self) w) (MissingRequired name).
Proof.
  intros custom_fields Hdata Hunknown Hbefore.
  assert (Hrun : CustomFieldModel_clean self w
                 = (w, Raise (ValidationError None (UnknownFieldName field_name)))).
  { unfold CustomFieldModel_clean. unfold bind at 1. unfold query at 1.
    fold custom_fields. rewrite Hdata. unfold bind at 1.
    rewrite for_each_stops with (e := ValidationError None (UnknownFieldName field_name)).
    - reflexivity.
    - intros [k v] Hin. destruct (Hbefore k v Hin) as (cf & Hcf & Hok).
      rewrite Hcf. unfold except_ValidationError.
      pose proof (CustomField_validate_readonly cf v w) as Hw.
      unfold outcome in Hok. unfold world_after in Hw.
      destruct (CustomField_validate cf v w) as [w1 r]. simpl in *. now subst.
    - now rewrite Hunknown. }
  split; [exact Hrun|].
  intros name [key H]. unfold outcome in H. rewrite Hrun in H. discriminate.
Qed.

End BagClean.

Lemma CustomFieldModel_clean_stops_at_unknown_key_witness :
  CustomFieldModel.custom_field_data counted_stray_object
  = [("count", PInt 2)] ++ ("bogus", PInt 1) :: []
  /\ dict_get "bogus" (by_name (get_for_model 9 (db bag_world))) = None
  /\ dict_get "count" (by_name (get_for_model 9 (db bag_world))) = Some count_field
  /\ outcome (@CustomField_validate example_runtime count_field (PInt 2)) bag_world = Ok tt
  /\ @CustomFieldModel_clean example_runtime counted_stray_object bag_world
     = (bag_world, Raise (ValidationError None (UnknownFieldName "bogus"))).
Proof.
  split; [reflexivity | split; [reflexivity | split; [reflexivity | split; [reflexivity|]]]].
  apply (@CustomFieldModel_clean_stops_at_unknown_key example_runtime
           counted_stray_object bag_world [("count", PInt 2)] [] "bogus" (PInt 1));
    [reflexivity | reflexivity |].
  intros k v [H | []]. injection H as <- <-.
  exists count_field. split; reflexivity.
Defined.

(** C1, as the specification states it, fails: the bag of [stray_object] has
    one unknown key and lacks the required "priority", and the single call
    reports the unknown key only. *)
Lemma CustomFieldModel_clean_does_not_collect :
  CustomField.required priority_field = true
  /\ In priority_field (get_for_model 9 (db bag_world))
  /\ dict_mem "priority" (CustomFieldModel.custom_field_data stray_object) = false
  /\ ~ (reports (outcome (@CustomFieldModel_clean example_runtime stray_object) bag_world)
                (UnknownFieldName "bogus")
        /\ reports (outcome (@CustomFieldModel_clean example_runtime stray_object) bag_world)
                   (MissingRequired "priority")).
Proof.
  split; [reflexivity | split; [now left | split; [reflexivity|]]].
  intros [_ [key H]]. discriminate.
Qed.

(** * Further properties of the models *)

(** ** More on the exceptions a method can raise *)

Lemma raises_only_weaken {A} (P Q : exn -> Prop) (m : M A) :
  (forall e, P e -> Q e) -> raises_only P m -> raises_only Q m.
Proof. intros HPQ Hm w w' e H. apply HPQ. exact (Hm _ _ _ H). Qed.

(** A ValueError of the guarded call is replaced by what the handler does;
    anything else the call raises comes out as it is. *)
Lemma raises_only_except_ValueError {A} (P : exn -> Prop) (m handler : M A) :
  raises_only (fun e => e = ValueError \/ P e) m ->
  raises_only P handler ->
  raises_only P (except_ValueError m handler).
Proof.
  intros Hm Hh w w' e. unfold except_ValueError.
  destruct (m w) as [w1 [a | e1]] eqn:E; [discriminate|].
  destruct (Hm _ _ _ E) as [-> | He1].
  - apply Hh.
  - destruct e1; try (intros H; injection H as _ <-; exact He1).
    apply Hh.
Qed.

Section BuiltinExceptions.
Context {rt : Runtime}.

Lemma py_re_match_raises regex value :
  raises_only (fun e => e = ReError \/ e = TypeError) (py_re_match regex value).
Proof.
  intros w w' e. unfold py_re_match.
  destruct (re_compiles regex); simpl.
  - destruct value; intros [= _ <-]; now right.
  - intros [= _ <-]. now left.
Qed.

Lemma py_int_raises value :
  raises_only (fun e => e = ValueError \/ e = TypeError \/ e = OverflowError)
              (py_int value).
Proof.
  intros w w' e. unfold py_int.
  destruct value; try (intros [= _ <-]; auto); try discriminate.
  destruct (int_of_str s); [discriminate | intros [= _ <-]; now left].
Qed.

Lemma py_lt_raises value n : raises_only (fun e => e = TypeError) (py_lt value n).
Proof. intros w w' e. destruct value; simpl; intros [= _ <-] || discriminate; reflexivity. Qed.

Lemma py_gt_raises value n : raises_only (fun e => e = TypeError) (py_gt value n).
Proof. intros w w' e. destruct value; simpl; intros [= _ <-] || discriminate; reflexivity. Qed.

Lemma py_strptime_raises value :
  raises_only (fun e => e = ValueError \/ e = TypeError) (py_strptime value).
Proof.
  intros w w' e. unfold py_strptime.
  destruct value; try (intros [= _ <-]; now right).
  destruct (strptime_ymd s); [discriminate | intros [= _ <-]; now left].
Qed.

Lemma py_set_raises value : raises_only (fun e => e = TypeError) (py_set value).
Proof.
  intros w w' e. unfold py_set.
  destruct value; try (intros [= _ <-]; reflexivity); try discriminate.
  destruct (forallb hashable l); [discriminate | intros [= _ <-]; reflexivity].
Qed.

Lemma py_str_in_raises s container :
  raises_only (fun e => e = TypeError) (py_str_in s container).
Proof.
  intros w w' e. destruct container; simpl; intros [= _ <-] || discriminate; reflexivity.
Qed.

End BuiltinExceptions.

(** One step through a method body, for any property of exceptions that
    holds of TypeError, OverflowError and ReError. *)
Ltac raises_body_step :=
  match goal with
  | |- raises_only _ (bind _ _) => apply raises_only_bind; [| intros ?]
  | |- raises_only _ (when _ _) => apply raises_only_when
  | |- raises_only _ (ret _) => apply raises_only_ret
  | |- raises_only _ (query _) => apply raises_only_query
  | |- raises_only _ (raise _) => apply raises_only_raise
  | |- raises_only _ (except_ValueError _ _) => apply raises_only_except_ValueError
  | |- raises_only _ (py_re_match _ _) =>
      eapply raises_only_weaken; [| apply py_re_match_raises]; intros ? [-> | ->]
  | |- raises_only _ (py_int _) =>
      eapply raises_only_weaken; [| apply py_int_raises]; intros ? [-> | [-> | ->]]
  | |- raises_only _ (py_strptime _) =>
      eapply raises_only_weaken; [| apply py_strptime_raises]; intros ? [-> | ->]
  | |- raises_only _ (py_lt _ _) =>
      eapply raises_only_weaken; [| apply py_lt_raises]; intros ? ->
  | |- raises_only _ (py_gt _ _) =>
      eapply raises_only_weaken; [| apply py_gt_raises]; intros ? ->
  | |- raises_only _ (py_set _) =>
      eapply raises_only_weaken; [| apply py_set_raises]; intros ? ->
  | |- raises_only _ (py_str_in _ _) =>
      eapply raises_only_weaken; [| apply py_str_in_raises]; intros ? ->
  | |- raises_only _ (match ?x with _ => _ end) => destruct x
  end.

(** ** What validate raises *)

Section ValidateExceptions.
Context {rt : Runtime}.
Import CustomField.

(** X1: whatever the field and the value, [validate] raises nothing but a
    ValidationError without a key, a TypeError, the OverflowError of [int] of
    an infinite float, or the error of a pattern that does not compile: no
    ValueError of [int] or [strptime] escapes. *)
Theorem CustomField_validate_raises_only (self : t) (value : pyval) :
  raises_only validate_error (CustomField_validate self value).
Proof.
  unfold CustomField_validate, validate_error.
  destruct (is_empty value);
    repeat raises_body_step;
    solve [ now left | now (right; left) | now (right; right; left)
          | right; right; right; eexists; reflexivity
          | now (right; right; right; left) ].
Qed.

End ValidateExceptions.

(** ** The rules of validate, type by type *)

Section ValidateRules.
Context {rt : Runtime}.
Import CustomField.

Lemma is_empty_true (value : pyval) :
  is_empty value = true <-> value = PNone \/ value = PStr "" \/ value = PList [].
Proof.
  split.
  - destruct value as [| | | |s|l| | | |]; try discriminate; simpl.
    + now left.
    + destruct s; [now (right; left) | discriminate].
    + destruct l; [now (right; right) | discriminate].
  - intros [-> | [-> | ->]]; reflexivity.
Qed.

Lemma in_strs_true (value : pyval) (strs : list string) :
  in_strs value strs = true <-> exists s, value = PStr s /\ In s strs.
Proof.
  unfold in_strs. rewrite existsb_exists. split.
  - intros (s & Hin & Heq). apply py_eq_str_true in Heq. now exists s.
  - intros (s & -> & Hin). exists s. split; [exact Hin | simpl; apply String.eqb_refl].
Qed.

(** X2: [validate] raises the required-field error exactly for a required
    field given None, the empty str or the empty list.  Zero, False and the
    empty dict are values like any other, and a field that is not required
    never raises it. *)
Theorem CustomField_validate_required_empty (self : t) (value : pyval) (w : World) :
  outcome (CustomField_validate self value) w = Raise (ValidationError None RequiredEmpty)
  <-> required self = true
      /\ (value = PNone \/ value = PStr "" \/ value = PList []).
Proof.
  rewrite <- is_empty_true. unfold outcome, CustomField_validate.
  destruct (is_empty value) eqn:Hempty; simpl.
  - destruct (required self); simpl; split; try discriminate; intuition discriminate.
  - split; [| intros [_ H]; discriminate].
    match goal with |- snd (?body w) = _ -> _ =>
      assert (Hbody : raises_only (fun e => e <> ValidationError None RequiredEmpty) body)
    end.
    { repeat raises_body_step; try discriminate;
        solve [ now left | right; discriminate ]. }
    match goal with |- snd (?body w) = _ -> _ =>
      destruct (body w) as [w1 [[] | e]] eqn:E
    end; simpl; [discriminate|].
    intros [= ->]. exfalso. exact (Hbody _ _ _ E eq_refl).
Qed.

(** X3: a URL field, and a text field without a regex, are not checked at
    all: every value passes, of whatever Python type, except an empty one when
    the field is required. *)
Theorem CustomField_validate_unchecked_types (self : t) (value : pyval) (w : World) :
  type self = TYPE_URL \/ (type self = TYPE_TEXT /\ validation_regex self = "") ->
  CustomField_validate self value w
  = (w, if is_empty value && required self
        then Raise (ValidationError None RequiredEmpty) else Ok tt).
Proof.
  unfold CustomField_validate.
  intros [Hty | [Hty Hre]]; rewrite Hty; try rewrite Hre;
    destruct (is_empty value), (required self); reflexivity.
Qed.

(** X4: for a select field and a value that is not empty, [validate]
    succeeds exactly when the value is a str that is the value of a stored
    choice of this field; any other value is an invalid choice, never another
    exception. *)
Theorem CustomField_validate_select (self : t) (value : pyval) (w : World) :
  type self = TYPE_SELECT ->
  is_empty value = false ->
  (outcome (CustomField_validate self value) w = Ok tt
   <-> exists r, In r (customfieldchoices (db w))
                 /\ CustomFieldChoice.field_id r = pk self
                 /\ value = PStr (CustomFieldChoice.row_value r))
  /\ (outcome (CustomField_validate self value) w <> Ok tt ->
      exists available,
        outcome (CustomField_validate self value) w
        = Raise (ValidationError None (InvalidChoice value available))).
Proof.
  intros Hty Hempty. unfold outcome, CustomField_validate.
  rewrite Hty, Hempty. simpl. unfold bind, query, when. simpl.
  destruct (in_strs value (choices_values self (db w))) eqn:Hin; simpl.
  - split; [| intros H; now contradiction H].
    split; [intros _ | reflexivity].
    apply in_strs_true in Hin as (s & -> & Hs).
    unfold choices_values, choices_all in Hs.
    apply in_map_iff in Hs as (r & <- & Hr). apply filter_In in Hr as [Hr Hf].
    apply Nat.eqb_eq in Hf. now exists r.
  - split; [| intros _; eexists; reflexivity].
    split; [discriminate|]. intros (r & Hr & Hf & ->).
    assert (in_strs (PStr (CustomFieldChoice.row_value r)) (choices_values self (db w)) = true)
      as Hyes.
    { apply in_strs_true. eexists. split; [reflexivity|].
      unfold choices_values, choices_all. apply in_map_iff. exists r.
      split; [reflexivity|]. apply filter_In. split; [exact Hr|].
      now apply Nat.eqb_eq. }
    congruence.
Qed.

(** X5: for a multi-select field and a list that is not empty, [validate]
    succeeds exactly when every element is a str that is the value of a
    stored choice of this field. *)
Theorem CustomField_validate_multiselect_list
    (self : t) (x : pyval) (l : list pyval) (w : World) :
  type self = TYPE_MULTISELECT ->
  outcome (CustomField_validate self (PList (x :: l))) w = Ok tt
  <-> forall v, In v (x :: l) ->
        exists s, v = PStr s /\ In s (choices_values self (db w)).
Proof.
  intros Hty. unfold outcome, CustomField_validate.
  rewrite Hty. change (is_empty (PList (x :: l))) with false.
  remember (x :: l) as xs eqn:Hxs. clear Hxs. simpl.
  unfold bind, query, when, py_set.
  destruct (forallb hashable xs) eqn:Hhash.
  - simpl.
    destruct (forallb (fun e => in_strs e (choices_values self (db w))) xs) eqn:Hall;
      simpl.
    + split; [intros _ | reflexivity].
      intros v Hv. rewrite forallb_forall in Hall. apply in_strs_true. now apply Hall.
    + split; [discriminate|]. intros H.
      assert (forallb (fun e => in_strs e (choices_values self (db w))) xs = true)
        as Hyes.
      { apply forallb_forall. intros v Hv. apply in_strs_true. now apply H. }
      congruence.
  - simpl. split; [discriminate|]. intros H.
    assert (forallb hashable xs = true) as Hyes.
    { apply forallb_forall. intros v Hv. destruct (H v Hv) as (s & -> & _). reflexivity. }
    congruence.
Qed.

(** X6: for an integer field and an int, [validate] checks the minimum
    first and then the maximum, both inclusive, and raises nothing else. *)
Theorem CustomField_validate_integer_bounds (self : t) (z : Z) (w : World) :
  type self = TYPE_INTEGER ->
  CustomField_validate self (PInt z) w
  = (w, match validation_minimum self, validation_maximum self with
        | Some lo, _ =>
            if Z.ltb z lo then Raise (ValidationError None (MustBeAtLeast lo))
            else match validation_maximum self with
                 | Some hi => if Z.ltb hi z
                              then Raise (ValidationError None (MustNotExceed hi))
                              else Ok tt
                 | None => Ok tt
                 end
        | None, Some hi =>
            if Z.ltb hi z then Raise (ValidationError None (MustNotExceed hi)) else Ok tt
        | None, None => Ok tt
        end).
Proof.
  intros Hty. unfold CustomField_validate. rewrite Hty. simpl.
  unfold bind, except_ValueError, when. simpl.
  destruct (validation_minimum self) as [lo|];
    destruct (validation_maximum self) as [hi|]; simpl;
    try destruct (Z.ltb z lo); try destruct (Z.ltb hi z); reflexivity.
Qed.

(** An integer field rejects a text that [int] cannot read with the
    must-be-an-integer error, whatever its bounds. *)
Theorem CustomField_validate_integer_unreadable_text
    (self : t) (s : string) (w : World) :
  type self = TYPE_INTEGER ->
  s <> "" ->
  int_of_str s = None ->
  CustomField_validate self (PStr s) w = (w, Raise (ValidationError None MustBeInteger)).
Proof.
  intros Hty Hne Hint. unfold CustomField_validate.
  destruct s as [|c s]; [contradiction|].
  rewrite Hty. simpl. unfold bind, except_ValueError, py_int. now rewrite Hint.
Qed.

(** X7: a boolean, URL or select field keeps the contract of [validate] on
    every value: the result is a success or a ValidationError. *)
Theorem CustomField_validate_contract_without_conversion
    (self : t) (value : pyval) (w : World) :
  type self = TYPE_BOOLEAN \/ type self = TYPE_URL \/ type self = TYPE_SELECT ->
  ok_or_ValidationError (outcome (CustomField_validate self value) w).
Proof.
  intros Hty.
  assert (Hraises : raises_only (fun e => exists key msg, e = ValidationError key msg)
                      (CustomField_validate self value)).
  { unfold CustomField_validate.
    destruct Hty as [Hty | [Hty | Hty]]; rewrite Hty; simpl;
      destruct (is_empty value); simpl;
      repeat raises_body_step; eexists; eexists; reflexivity. }
  unfold ok_or_ValidationError, outcome.
  destruct (CustomField_validate self value w) as [w1 [[] | e]] eqn:E; simpl.
  - now left.
  - right. destruct (Hraises _ _ _ E) as (key & msg & ->). now exists key, msg.
Qed.

End ValidateRules.

Lemma CustomField_validate_unchecked_types_witness :
  (CustomField.type homepage_field = TYPE_URL
   \/ (CustomField.type homepage_field = TYPE_TEXT
       /\ CustomField.validation_regex homepage_field = ""))
  /\ @CustomField_validate example_runtime homepage_field (PList [PInt 7]) example_world
     = (example_world, Ok tt).
Proof.
  split; [left; reflexivity|].
  apply (@CustomField_validate_unchecked_types example_runtime homepage_field
           (PList [PInt 7]) example_world).
  left; reflexivity.
Defined.

Lemma CustomField_validate_select_witness :
  CustomField.type tier_field = TYPE_SELECT
  /\ is_empty (PStr "gold") = false
  /\ outcome (@CustomField_validate example_runtime tier_field (PStr "gold")) example_world
     = Ok tt.
Proof.
  split; [reflexivity | split; [reflexivity|]].
  apply (proj1 (@CustomField_validate_select example_runtime tier_field (PStr "gold")
                  example_world eq_refl eq_refl)).
  exists gold_row. split; [now left | split; reflexivity].
Defined.

Lemma CustomField_validate_multiselect_list_witness :
  CustomField.type tags_field = TYPE_MULTISELECT
  /\ outcome (@CustomField_validate example_runtime tags_field (PList [PStr "b"; PStr "a"]))
             tags_world = Ok tt.
Proof.
  split; [reflexivity|].
  apply (@CustomField_validate_multiselect_list example_runtime tags_field
           (PStr "b") [PStr "a"] tags_world eq_refl).
  intros v [<- | [<- | []]].
  - exists "b". split; [reflexivity | right; now left].
  - exists "a". split; [reflexivity | now left].
Defined.

Lemma CustomField_validate_integer_bounds_witness :
  CustomField.type priority_field = TYPE_INTEGER
  /\ @CustomField_validate example_runtime priority_field (PInt 5) example_world
     = (example_world, Ok tt)
  /\ @CustomField_validate example_runtime priority_field (PInt 6) example_world
     = (example_world, Raise (ValidationError None (MustNotExceed 5))).
Proof.
  split; [reflexivity | split].
  - apply (@CustomField_validate_integer_bounds example_runtime priority_field 5
             example_world eq_refl).
  - apply (@CustomField_validate_integer_bounds example_runtime priority_field 6
             example_world eq_refl).
Defined.

Lemma CustomField_validate_integer_unreadable_text_witness :
  CustomField.type priority_field = TYPE_INTEGER
  /\ "high" <> ""
  /\ @int_of_str example_runtime "high" = None
  /\ @CustomField_validate example_runtime priority_field (PStr "high") example_world
     = (example_world, Raise (ValidationError None MustBeInteger)).
Proof.
  split; [reflexivity | split; [discriminate | split; [reflexivity|]]].
  apply (@CustomField_validate_integer_unreadable_text example_runtime priority_field
           "high" example_world); [reflexivity | discriminate | reflexivity].
Defined.

Lemma CustomField_validate_contract_without_conversion_witness :
  (CustomField.type tier_field = TYPE_BOOLEAN \/ CustomField.type tier_field = TYPE_URL
   \/ CustomField.type tier_field = TYPE_SELECT)
  /\ ok_or_ValidationError
       (outcome (@CustomField_validate example_runtime tier_field (PList [PInt 7]))
                example_world).
Proof.
  split; [right; right; reflexivity|].
  apply (@CustomField_validate_contract_without_conversion example_runtime tier_field
           (PList [PInt 7]) example_world).
  right; right; reflexivity.
Defined.

(** ** The constraints checked by CustomField.clean *)

Lemma run_readonly {A} (m : M A) (w : World) : readonly m -> m w = (w, outcome m w).
Proof.
  intros Hm. specialize (Hm w). unfold world_after, outcome in *.
  destruct (m w) as [w1 r]. simpl in *. now subst.
Qed.

Lemma bind_when_raise {B} (c : bool) (e : exn) (k : unit -> M B) (w : World) :
  bind (when c (raise e)) k w = if c then (w, Raise e) else k tt w.
Proof. destruct c; reflexivity. Qed.

Lemma truthy_not_empty (v : pyval) : truthy v = true -> is_empty v = false.
Proof. destruct v as [| | | |s|l| | | |]; simpl; try reflexivity; try discriminate.
  - destruct s; [discriminate | reflexivity].
  - destruct l; [discriminate | reflexivity].
Qed.

Lemma truthy_is_not_None (v : pyval) : truthy v = true -> is_not_None v = true.
Proof. destruct v; simpl; try reflexivity; discriminate. Qed.

Section CleanConstraints.
Context {rt : Runtime}.
Import CustomField.

Lemma CustomField_validate_select_run (self : t) (value : pyval) (w : World) :
  type self = TYPE_SELECT ->
  is_empty value = false ->
  CustomField_validate self value w
  = (w, if in_strs value (choices_values self (db w)) then Ok tt
        else Raise (ValidationError None
                      (InvalidChoice value (join ", " (choices_values self (db w)))))).
Proof.
  intros Hty Hempty. unfold CustomField_validate. rewrite Hty, Hempty. simpl.
  unfold bind, query, when. simpl.
  destruct (in_strs value (choices_values self (db w))); reflexivity.
Qed.

Lemma CustomField_clean_split (self : t) :
  CustomField_clean self
  = bind (when (present_in_database self)
            (bind (CustomField_objects_get (pk self)) (fun database_object =>
               bind (when (negb (String.eqb (name self) (name database_object)))
                       (raise (ValidationError (Some "name") NameImmutable)))
                    (fun _ =>
                       when (negb (type_eqb (type self) (type database_object)))
                         (raise (ValidationError (Some "type") TypeImmutable))))))
         (fun _ => clean_after_immutable_fields self).
Proof. reflexivity. Qed.

Lemma clean_after_immutable_fields_run (self : t) (w : World) :
  clean_after_immutable_fields self w
  = (w, match default_judged self w with
        | Raise e => Raise e
        | Ok _ =>
            if is_Some (validation_minimum self) && negb (type_eqb (type self) TYPE_INTEGER)
            then Raise (ValidationError (Some "validation_minimum") MinimumOnlyNumeric)
            else if is_Some (validation_maximum self)
                    && negb (type_eqb (type self) TYPE_INTEGER)
            then Raise (ValidationError (Some "validation_maximum") MaximumOnlyNumeric)
            else if negb (String.eqb (validation_regex self) "")
                    && negb (type_eqb (type self) TYPE_TEXT || type_eqb (type self) TYPE_URL)
            then Raise (ValidationError (Some "validation_regex") RegexOnlyText)
            else if match choices_all self (db w) with [] => false | _ => true end
                    && negb (type_eqb (type self) TYPE_SELECT
                             || type_eqb (type self) TYPE_MULTISELECT)
            then Raise (ValidationError None ChoicesOnlySelection)
            else Ok tt
        end).
Proof.
  unfold clean_after_immutable_fields, default_judged.
  unfold bind at 1. unfold when at 1.
  destruct (is_not_None (default self)) eqn:Hnone.
  - unfold except_ValidationError.
    rewrite (run_readonly _ w (CustomField_validate_readonly self (default self))).
    destruct (outcome (CustomField_validate self (default self)) w) as [[] | e] eqn:Hval.
    + repeat (rewrite bind_when_raise;
              match goal with |- context [if ?c then _ else _] => destruct c eqn:? end;
              [reflexivity|]).
      unfold bind at 1. unfold query at 1.
      rewrite bind_when_raise.
      destruct (_ && negb (type_eqb (type self) TYPE_SELECT || _)); [reflexivity|].
      destruct (type_eqb_spec (type self) TYPE_SELECT) as [Hty|]; [| reflexivity].
      destruct (truthy (default self)) eqn:Htruthy; [| reflexivity].
      unfold outcome in Hval.
      rewrite (CustomField_validate_select_run self _ w Hty (truthy_not_empty _ Htruthy))
        in Hval.
      simpl in *. unfold bind, query, when.
      destruct (in_strs (default self) (choices_values self (db w))); [reflexivity|].
      discriminate.
    + destruct e; reflexivity.
  - unfold ret.
    repeat (rewrite bind_when_raise;
            match goal with |- context [if ?c then _ else _] => destruct c eqn:? end;
            [reflexivity|]).
    unfold bind at 1. unfold query at 1.
    rewrite bind_when_raise.
    destruct (_ && negb (type_eqb (type self) TYPE_SELECT || _)); [reflexivity|].
    destruct (truthy (default self)) eqn:Htruthy.
    + apply truthy_is_not_None in Htruthy. congruence.
    + rewrite andb_false_r. reflexivity.
Qed.

Lemma default_judged_ok (self : t) (w : World) :
  default_judged self w = Ok tt
  <-> default self = PNone \/ outcome (CustomField_validate self (default self)) w = Ok tt.
Proof.
  unfold default_judged.
  destruct (is_not_None (default self)) eqn:Hnone.
  - destruct (outcome (CustomField_validate self (default self)) w) as [[] | e].
    + split; [now right | reflexivity].
    + split.
      * destruct e; discriminate.
      * intros [Hd | Hd]; [| discriminate]. rewrite Hd in Hnone. discriminate.
  - split; [intros _; left | reflexivity].
    destruct (default self); try discriminate; reflexivity.
Qed.

Lemma clean_after_immutable_fields_ok (self : t) (w : World) :
  outcome (clean_after_immutable_fields self) w = Ok tt <-> field_constraints self w.
Proof.
  unfold outcome. rewrite clean_after_immutable_fields_run. simpl.
  unfold field_constraints. rewrite <- default_judged_ok.
  destruct (default_judged self w) as [[] | e].
  - destruct (validation_minimum self), (validation_maximum self), (type self),
      (String.eqb_spec (validation_regex self) ""), (choices_all self (db w)); simpl;
      (split;
       [ intros H; try discriminate H;
         repeat split; intros; try reflexivity; try contradiction;
           solve [ now left | now right | congruence ]
       | intros (_ & Hmin & Hmax & Hre & Hch);
         try (specialize (Hmin ltac:(discriminate)));
         try (specialize (Hmax ltac:(discriminate)));
         try (specialize (Hre ltac:(assumption)));
         try (specialize (Hch ltac:(discriminate)));
         try discriminate;
         try (destruct Hre; discriminate);
         try (destruct Hch; discriminate);
         reflexivity ]).
  - split; [discriminate | intros [Hd _]; discriminate].
Qed.

(** X8: [CustomField.clean] succeeds exactly when the immutable fields are
    kept (the instance is new, or its row is found and has the same name and
    type) and the constraints hold: the default is None or passes [validate],
    a minimum or maximum is set only on an integer field, a regex only on a
    text or URL field, and choices exist only for a select or multi-select
    field. *)
Theorem CustomField_clean_succeeds_iff (self : t) (w : World) :
  outcome (CustomField_clean self) w = Ok tt
  <-> immutable_fields_kept self w /\ field_constraints self w.
Proof.
  rewrite <- clean_after_immutable_fields_ok.
  unfold outcome at 1. rewrite CustomField_clean_split.
  unfold immutable_fields_kept.
  destruct (present_in_database self) eqn:Hdb.
  - unfold when at 1. unfold bind at 1 2. unfold CustomField_objects_get.
    destruct (find _ (customfields (db w))) as [stored|] eqn:Hget.
    + rewrite bind_when_raise.
      destruct (String.eqb_spec (name self) (name stored)) as [Hname | Hname]; simpl.
      * unfold when.
        destruct (type_eqb_spec (type self) (type stored)) as [Hty | Hty]; simpl.
        -- split.
           ++ intros H. split; [right; now exists stored | exact H].
           ++ intros [_ H]. exact H.
        -- split; [discriminate|].
           intros [[H | (st & [= <-] & _ & H)] _]; [discriminate | contradiction].
      * split; [discriminate|].
        intros [[H | (st & [= <-] & H & _)] _]; [discriminate | contradiction].
    + simpl. split; [discriminate|].
      intros [[H | (st & H & _)] _]; discriminate.
  - simpl. split.
    + intros H. split; [now left | exact H].
    + intros [_ H]. exact H.
Qed.

(** X9: [CustomField.clean] never raises the error of a default that is
    not listed as an available choice: for a select field such a default is
    already refused as an invalid default value by [validate], so the last
    check of [clean] cannot fire. *)
Theorem CustomField_clean_never_reports_unlisted_default
    (self : t) (w : World) (key : option string) (value : pyval) :
  outcome (CustomField_clean self) w
  <> Raise (ValidationError key (DefaultNotAChoice value)).
Proof.
  unfold outcome. rewrite CustomField_clean_split.
  assert (Hrest : snd (clean_after_immutable_fields self w)
                  <> Raise (ValidationError key (DefaultNotAChoice value))).
  { rewrite clean_after_immutable_fields_run. simpl. unfold default_judged.
    destruct (is_not_None (default self)).
    - destruct (outcome (CustomField_validate self (default self)) w) as [[] | e].
      + repeat match goal with
               | |- context [if ?c then _ else _] => destruct c
               end; discriminate.
      + destruct e; discriminate.
    - repeat match goal with
             | |- context [if ?c then _ else _] => destruct c
             end; discriminate. }
  destruct (present_in_database self).
  - unfold when at 1. unfold bind at 1 2. unfold CustomField_objects_get.
    destruct (find _ (customfields (db w))) as [stored|]; [| discriminate].
    rewrite bind_when_raise.
    destruct (negb (String.eqb (name self) (name stored))); [discriminate|].
    unfold when.
    destruct (negb (type_eqb (type self) (type stored))); [discriminate | exact Hrest].
  - exact Hrest.
Qed.

End CleanConstraints.

(** ** Validation only reads *)

(** X10: [validate], both [clean] methods of the fields and the [clean] of
    an object's custom field data leave the database and the task queue as
    they found them, whether they succeed or raise. *)
Theorem validation_never_writes {rt : Runtime}
    (field : CustomField.t) (value : pyval) (choice : CustomFieldChoice.t)
    (object : CustomFieldModel.t) (w : World) :
  world_after (CustomField_validate field value) w = w
  /\ world_after (CustomField_clean field) w = w
  /\ world_after (CustomFieldChoice_clean choice) w = w
  /\ world_after (CustomFieldModel_clean object) w = w.
Proof.
  split; [apply CustomField_validate_readonly|].
  split; [apply CustomField_clean_readonly|].
  split; [| apply CustomFieldModel_clean_readonly].
  unfold CustomFieldChoice_clean, world_after, when.
  destruct (negb _); reflexivity.
Qed.

(** ** More on the form field *)

Section FormFieldFlags.
Context {rt : Runtime}.
Import CustomField.

Lemma is_Some_hd_error_filter {A} (p : A -> bool) (l : list A) :
  is_Some (hd_error (filter p l)) = existsb p l.
Proof.
  induction l as [|a l IH]; simpl; [reflexivity|].
  destruct (p a); simpl; [reflexivity | exact IH].
Qed.

Lemma existsb_map {A B} (f : A -> B) (p : B -> bool) (l : list A) :
  existsb p (map f l) = existsb (fun a => p (f a)) l.
Proof. induction l as [|a l IH]; simpl; [reflexivity | now rewrite IH]. Qed.

(** X11: without [set_initial] the form field has no initial value, for
    every type: the default of a select field does not seed it either. *)
Theorem CustomField_to_form_field_without_initial
    (self : t) (enforce_required for_csv_import : bool) (w : World) :
  exists form_field,
    CustomField_to_form_field self false enforce_required for_csv_import w
    = (w, Ok form_field)
    /\ FormField.initial form_field = PNone.
Proof.
  unfold CustomField_to_form_field.
  destruct (type self); simpl; try (eexists; split; reflexivity);
    unfold bind, query, ret; simpl;
    destruct (hd_error (choices_filter_value self (default self) (db w)));
    eexists; split; reflexivity.
Qed.

(** X12: [for_csv_import] changes the class of the form field of a select
    or multi-select field and nothing else; for the other types the two form
    fields are the same. *)
Theorem CustomField_to_form_field_csv_changes_class_only
    (self : t) (set_initial enforce_required : bool) (w : World) :
  exists plain csv,
    CustomField_to_form_field self set_initial enforce_required false w = (w, Ok plain)
    /\ CustomField_to_form_field self set_initial enforce_required true w = (w, Ok csv)
    /\ FormField.required csv = FormField.required plain
    /\ FormField.initial csv = FormField.initial plain
    /\ FormField.min_value csv = FormField.min_value plain
    /\ FormField.max_value csv = FormField.max_value plain
    /\ FormField.max_length csv = FormField.max_length plain
    /\ FormField.widget csv = FormField.widget plain
    /\ FormField.choices csv = FormField.choices plain
    /\ FormField.regex_validator csv = FormField.regex_validator plain
    /\ FormField.model csv = FormField.model plain
    /\ FormField.label csv = FormField.label plain
    /\ FormField.help_text csv = FormField.help_text plain
    /\ match type self with
       | TYPE_SELECT =>
           FormField.field_class plain = ChoiceField
           /\ FormField.field_class csv = CSVChoiceField
       | TYPE_MULTISELECT =>
           FormField.field_class plain = MultipleChoiceField
           /\ FormField.field_class csv = CSVMultipleChoiceField
       | _ => csv = plain
       end.
Proof.
  unfold CustomField_to_form_field.
  destruct (type self); simpl;
    try (eexists; eexists; repeat (split; [reflexivity|]); reflexivity);
    unfold bind, query, ret; simpl;
    eexists; eexists; repeat (split; [reflexivity|]); split; reflexivity.
Qed.

(** X13: the choices of the form field of a select or multi-select field
    are the values of the field's stored choices, in their order, as they
    are when the field is required (and this is enforced) and one of them is
    the text its default is looked up as (the default itself when it is a
    str, its [str] when it is another value, and nothing when it is None),
    and with the blank choice added otherwise. *)
Theorem CustomField_to_form_field_choices
    (self : t) (set_initial enforce_required for_csv_import : bool) (w : World) :
  type self = TYPE_SELECT \/ type self = TYPE_MULTISELECT ->
  exists form_field,
    CustomField_to_form_field self set_initial enforce_required for_csv_import w
    = (w, Ok form_field)
    /\ FormField.choices form_field
       = let values := map (fun v => (Some v, v)) (choices_values self (db w)) in
         if enforce_required && required self
            && match lookup_text (default self) with
               | Some text => existsb (fun v => String.eqb v text) (choices_values self (db w))
               | None => false
               end
         then values else add_blank_choice values.
Proof.
  intros Hty. unfold CustomField_to_form_field.
  assert (Hlisted :
            is_Some (hd_error (choices_filter_value self (default self) (db w)))
            = match lookup_text (default self) with
              | Some text => existsb (fun v => String.eqb v text) (choices_values self (db w))
              | None => false
              end).
  { unfold choices_filter_value, choices_values.
    destruct (lookup_text (default self)); [| reflexivity].
    rewrite is_Some_hd_error_filter, existsb_map. reflexivity. }
  assert (Hreq : (if enforce_required then required self else false)
                 = enforce_required && required self).
  { destruct enforce_required; reflexivity. }
  assert (Hvalues :
            map (fun cfc => (Some (CustomFieldChoice.row_value cfc),
                             CustomFieldChoice.row_value cfc)) (choices_all self (db w))
            = map (fun v => (Some v, v)) (choices_values self (db w))).
  { unfold choices_values. now rewrite map_map. }
  destruct Hty as [Hty | Hty]; rewrite Hty; simpl;
    unfold bind, query, ret; simpl;
    eexists; (split; [reflexivity|]); simpl;
    rewrite Hlisted, Hreq, Hvalues;
    destruct (enforce_required && required self),
      (lookup_text (default self)) as [text|];
    try destruct (existsb (fun v => String.eqb v text) (choices_values self (db w)));
    reflexivity.
Qed.

End FormFieldFlags.

Lemma CustomField_to_form_field_choices_witness :
  (CustomField.type tier_field = TYPE_SELECT
   \/ CustomField.type tier_field = TYPE_MULTISELECT)
  /\ exists form_field,
       @CustomField_to_form_field example_runtime tier_field true true false example_world
       = (example_world, Ok form_field)
       /\ FormField.choices form_field = [(Some "gold", "gold"); (Some "golden", "golden")].
Proof.
  split; [left; reflexivity|].
  apply (@CustomField_to_form_field_choices example_runtime tier_field true true false
           example_world).
  left; reflexivity.
Defined.

(** ** More on saving a CustomFieldChoice *)

Section ChoiceSaveMore.
Import CustomFieldChoice.

(** [save] either fails before anything is written, or writes the row. *)
Lemma CustomFieldChoice_save_cases (self : t) (w : World) :
  (exists e, CustomFieldChoice_save self w = (w, Raise e)
             /\ (e = DoesNotExist \/ e = IntegrityError))
  \/ (outcome (CustomFieldChoice_save self) w = Ok tt
      /\ unique_together_taken self (customfieldchoices (db w)) = false
      /\ (present_in_database self = false ->
          existsb (fun r => Nat.eqb (row_pk r) (pk self)) (customfieldchoices (db w)) = false)
      /\ db (world_after (CustomFieldChoice_save self) w) = db_with_choice self (db w)
      /\ exists tasks,
           effects (world_after (CustomFieldChoice_save self) w)
           = effects w ++ Saved extras_customfieldchoice (pk self) :: tasks).
Proof.
  unfold CustomFieldChoice_save, outcome, world_after, bind, ret,
    CustomFieldChoice_objects_get, Model_save_CustomFieldChoice.
  destruct (present_in_database self) eqn:Hdb; simpl.
  - destruct (find _ (customfieldchoices (db w))) as [stored|] eqn:Hget; simpl.
    + rewrite orb_false_r.
      destruct (unique_together_taken self _) eqn:Huniq; simpl.
      * left. eexists. split; [reflexivity | now right].
      * right. unfold when, delay.
        destruct (negb (String.eqb (value self) (row_value stored))); simpl.
        -- repeat split; try discriminate. eexists. now rewrite <- app_assoc.
        -- repeat split; try discriminate. now exists [].
    + left. eexists. split; [reflexivity | now left].
  - destruct (unique_together_taken self _) eqn:Huniq; simpl.
    + left. eexists. split; [reflexivity | now right].
    + destruct (existsb _ (customfieldchoices (db w))) eqn:Htaken; simpl.
      * left. eexists. split; [reflexivity | now right].
      * right. rewrite String.eqb_refl. simpl.
        unfold db_with_choice. rewrite Htaken.
        repeat split. now exists [].
Qed.

(** X14: when [save] raises, nothing has been written and no task has been
    enqueued, and the error is DoesNotExist (the row of an instance marked
    as stored is gone) or IntegrityError (the write is refused). *)
Theorem CustomFieldChoice_save_failure_writes_nothing (self : t) (w : World) (e : exn) :
  outcome (CustomFieldChoice_save self) w = Raise e ->
  world_after (CustomFieldChoice_save self) w = w
  /\ (e = DoesNotExist \/ e = IntegrityError).
Proof.
  unfold outcome, world_after.
  destruct (CustomFieldChoice_save_cases self w) as [(e' & Hrun & He') | (Hok & _)].
  - rewrite Hrun. simpl. intros [= <-]. split; [reflexivity | exact He'].
  - unfold outcome in Hok. rewrite Hok. discriminate.
Qed.

(** X15: [save] of an instance marked as stored whose row no longer exists
    fails with DoesNotExist before anything is written. *)
Theorem CustomFieldChoice_save_row_gone (self : t) (w : World) :
  present_in_database self = true ->
  find (fun r => Nat.eqb (row_pk r) (pk self)) (customfieldchoices (db w)) = None ->
  CustomFieldChoice_save self w = (w, Raise DoesNotExist).
Proof.
  intros Hdb Hget.
  unfold CustomFieldChoice_save, bind, CustomFieldChoice_objects_get.
  now rewrite Hdb, Hget.
Qed.

Lemma find_app_new {A} (p : A -> bool) (l : list A) (a : A) :
  existsb p l = false -> p a = true -> find p (l ++ [a]) = Some a.
Proof.
  intros Hl Ha. induction l as [|b l IH]; simpl in *.
  - now rewrite Ha.
  - apply orb_false_elim in Hl as [Hb Hl]. rewrite Hb. now apply IH.
Qed.

Lemma find_app_other {A} (p : A -> bool) (l : list A) (a : A) :
  p a = false -> find p (l ++ [a]) = find p l.
Proof.
  intros Ha. induction l as [|b l IH]; simpl.
  - now rewrite Ha.
  - destruct (p b); [reflexivity | exact IH].
Qed.

Lemma existsb_find_some {A} (p : A -> bool) (l : list A) :
  existsb p l = true -> exists a, find p l = Some a.
Proof.
  induction l as [|b l IH]; simpl; [discriminate|].
  destruct (p b); [now exists b | exact IH].
Qed.

Lemma find_replaced_other (k k' : nat) (new : row) (l : list row) :
  row_pk new = k -> k' <> k ->
  find (fun r => Nat.eqb (row_pk r) k')
       (map (fun r => if Nat.eqb (row_pk r) k then new else r) l)
  = find (fun r => Nat.eqb (row_pk r) k') l.
Proof.
  intros Hnew Hk. induction l as [|a l IH]; simpl; [reflexivity|].
  destruct (Nat.eqb_spec (row_pk a) k) as [Ha | Ha].
  - rewrite Hnew. apply Nat.eqb_neq in Hk. rewrite Nat.eqb_sym in Hk.
    rewrite Hk. rewrite Ha. rewrite Hk. exact IH.
  - destruct (Nat.eqb (row_pk a) k'); [reflexivity | exact IH].
Qed.

(** X16: after a [save] that succeeds, looking the choice up by its primary
    key gives the row of the instance, every other primary key gives what it
    gave before, and the other tables are as they were. *)
Theorem CustomFieldChoice_save_then_get (self : t) (w : World) :
  outcome (CustomFieldChoice_save self) w = Ok tt ->
  let w' := world_after (CustomFieldChoice_save self) w in
  CustomFieldChoice_objects_get (pk self) w' = (w', Ok (to_row self))
  /\ (forall k, k <> pk self ->
        outcome (CustomFieldChoice_objects_get k) w'
        = outcome (CustomFieldChoice_objects_get k) w)
  /\ customfields (db w') = customfields (db w)
  /\ content_types (db w') = content_types (db w)
  /\ objects (db w') = objects (db w).
Proof.
  intros Hok w'.
  destruct (CustomFieldChoice_save_cases self w)
    as [(e & Hrun & _) | (_ & _ & _ & Hdb & _)].
  { unfold outcome in Hok. rewrite Hrun in Hok. discriminate. }
  fold w' in Hdb. unfold CustomFieldChoice_objects_get, outcome. rewrite Hdb.
  unfold db_with_choice. simpl.
  destruct (existsb _ (customfieldchoices (db w))) eqn:Htaken.
  - destruct (existsb_find_some _ _ Htaken) as (old & Hold).
    rewrite (find_replaced _ row_pk (pk self) (to_row self) _ _ eq_refl Hold).
    repeat split. intros k Hk.
    rewrite (find_replaced_other (pk self) k (to_row self) _ eq_refl Hk).
    destruct (find (fun r => Nat.eqb (row_pk r) k) (customfieldchoices (db w)));
      reflexivity.
  - rewrite (find_app_new _ _ (to_row self) Htaken (Nat.eqb_refl _)).
    repeat split. intros k Hk.
    rewrite find_app_other;
      [destruct (find (fun r => Nat.eqb (row_pk r) k) (customfieldchoices (db w)));
       reflexivity|].
    simpl. apply Nat.eqb_neq. congruence.
Qed.

End ChoiceSaveMore.

(** ** The constraints of the table of choices *)

Section ChoiceTableConstraints.
Import CustomFieldChoice.

Lemma NoDup_snoc {A} (l : list A) (a : A) : NoDup l -> ~ In a l -> NoDup (l ++ [a]).
Proof.
  intros Hl Ha. induction l as [|b l IH]; simpl.
  - constructor; [intros [] | constructor].
  - inversion Hl as [|? ? Hb Hl']; subst. constructor.
    + rewrite in_app_iff. intros [H | [H | []]]; [contradiction|].
      subst. apply Ha. now left.
    + apply IH; [exact Hl'|]. intros H. apply Ha. now right.
Qed.

Lemma unique_together_free (self : t) (rows : list row) :
  unique_together_taken self rows = false ->
  forall r, In r rows -> row_pk r <> pk self -> pair_of r <> pair_of (to_row self).
Proof.
  unfold unique_together_taken. intros Hfree r Hr Hpk Hpair.
  assert (existsb (fun r => negb (Nat.eqb (row_pk r) (pk self))
                            && Nat.eqb (field_id r) (CustomField.pk (field self))
                            && String.eqb (row_value r) (value self)) rows = true) as Hyes.
  { apply existsb_exists. exists r. split; [exact Hr|].
    unfold pair_of in Hpair. simpl in Hpair. injection Hpair as Hf Hv.
    apply Nat.eqb_neq in Hpk. rewrite Hpk, Hf, Hv, Nat.eqb_refl, String.eqb_refl.
    reflexivity. }
  congruence.
Qed.

Lemma pk_free (k : nat) (rows : list row) :
  existsb (fun r => Nat.eqb (row_pk r) k) rows = false ->
  forall r, In r rows -> row_pk r <> k.
Proof.
  intros Hfree r Hr Hpk.
  assert (existsb (fun r => Nat.eqb (row_pk r) k) rows = true) as Hyes.
  { apply existsb_exists. exists r. split; [exact Hr | now apply Nat.eqb_eq]. }
  congruence.
Qed.

Lemma replaced_pks (new : row) (rows : list row) :
  map row_pk (map (fun r => if Nat.eqb (row_pk r) (row_pk new) then new else r) rows)
  = map row_pk rows.
Proof.
  induction rows as [|a rows IH]; simpl; [reflexivity|].
  rewrite IH. destruct (Nat.eqb_spec (row_pk a) (row_pk new)) as [-> |]; reflexivity.
Qed.

Lemma replaced_absent (new : row) (rows : list row) :
  (forall r, In r rows -> row_pk r <> row_pk new) ->
  map (fun r => if Nat.eqb (row_pk r) (row_pk new) then new else r) rows = rows.
Proof.
  intros Habsent. induction rows as [|a rows IH]; simpl; [reflexivity|].
  rewrite IH by (intros r Hr; apply Habsent; now right).
  destruct (Nat.eqb_spec (row_pk a) (row_pk new)) as [Ha |]; [| reflexivity].
  exfalso. apply (Habsent a); [now left | exact Ha].
Qed.

Lemma replaced_pairs_unique (new : row) (rows : list row) :
  NoDup (map row_pk rows) ->
  NoDup (map pair_of rows) ->
  (forall r, In r rows -> row_pk r <> row_pk new -> pair_of r <> pair_of new) ->
  NoDup (map pair_of
             (map (fun r => if Nat.eqb (row_pk r) (row_pk new) then new else r) rows)).
Proof.
  induction rows as [|a rows IH]; simpl; intros Hpks Hpairs Hfree; [constructor|].
  inversion Hpks as [|? ? Hapk Hpks']; subst.
  inversion Hpairs as [|? ? Hapair Hpairs']; subst.
  destruct (Nat.eqb_spec (row_pk a) (row_pk new)) as [Ha | Ha].
  - assert (Habsent : forall r, In r rows -> row_pk r <> row_pk new).
    { intros r Hr Heq. apply Hapk. apply in_map_iff. exists r.
      split; [congruence | exact Hr]. }
    rewrite (replaced_absent new rows Habsent). constructor; [| exact Hpairs'].
    intros Hin. apply in_map_iff in Hin as (r & Heq & Hr).
    apply (Hfree r); [now right | now apply Habsent | exact Heq].
  - constructor.
    + intros Hin. apply in_map_iff in Hin as (r' & Heq & Hr').
      apply in_map_iff in Hr' as (r & Hrr' & Hr).
      destruct (Nat.eqb_spec (row_pk r) (row_pk new)); subst r'.
      * apply (Hfree a); [now left | exact Ha | now symmetry].
      * apply Hapair. apply in_map_iff. now exists r.
    + apply IH; [exact Hpks' | exact Hpairs' |].
      intros r Hr. apply Hfree. now right.
Qed.

(** X17: [save] keeps the constraints of the table of choices: if primary
    keys and pairs of field and value are unique before, they are unique
    after, whether the instance is inserted, updated or refused. *)
Theorem CustomFieldChoice_save_keeps_unique (self : t) (w : World) :
  choices_unique (customfieldchoices (db w)) ->
  choices_unique (customfieldchoices (db (world_after (CustomFieldChoice_save self) w))).
Proof.
  intros [Hpks Hpairs].
  destruct (CustomFieldChoice_save_cases self w)
    as [(e & Hrun & _) | (_ & Huniq & _ & Hdb & _)].
  { unfold world_after. rewrite Hrun. now split. }
  rewrite Hdb. unfold db_with_choice, choices_unique. simpl.
  pose proof (unique_together_free self _ Huniq) as Hfree.
  destruct (existsb _ (customfieldchoices (db w))) eqn:Htaken.
  - split.
    + rewrite (replaced_pks (to_row self)). exact Hpks.
    + apply (replaced_pairs_unique (to_row self)); assumption.
  - pose proof (pk_free _ _ Htaken) as Habsent.
    rewrite !map_app. simpl. split; apply NoDup_snoc; try assumption.
    + intros Hin. apply in_map_iff in Hin as (r & Heq & Hr).
      now apply (Habsent r).
    + intros Hin. apply in_map_iff in Hin as (r & Heq & Hr).
      apply (Hfree r Hr); [now apply Habsent | exact Heq].
Qed.

End ChoiceTableConstraints.

Lemma CustomFieldChoice_save_failure_writes_nothing_witness :
  outcome (CustomFieldChoice_save clashing_choice) example_world = Raise IntegrityError
  /\ world_after (CustomFieldChoice_save clashing_choice) example_world = example_world
  /\ (IntegrityError = DoesNotExist \/ IntegrityError = IntegrityError).
Proof.
  split; [reflexivity|].
  apply (CustomFieldChoice_save_failure_writes_nothing clashing_choice example_world
           IntegrityError).
  reflexivity.
Defined.

Lemma CustomFieldChoice_save_row_gone_witness :
  CustomFieldChoice.present_in_database orphan_choice = true
  /\ find (fun r => Nat.eqb (CustomFieldChoice.row_pk r) 99) (customfieldchoices example_db)
     = None
  /\ CustomFieldChoice_save orphan_choice example_world = (example_world, Raise DoesNotExist).
Proof.
  split; [reflexivity | split; [reflexivity|]].
  apply (CustomFieldChoice_save_row_gone orphan_choice example_world); reflexivity.
Defined.

Lemma CustomFieldChoice_save_then_get_witness :
  outcome (CustomFieldChoice_save renamed_choice) example_world = Ok tt
  /\ outcome (CustomFieldChoice_objects_get 10)
             (world_after (CustomFieldChoice_save renamed_choice) example_world)
     = Ok (CustomFieldChoice.to_row renamed_choice).
Proof.
  split; [reflexivity|].
  pose proof (CustomFieldChoice_save_then_get renamed_choice example_world eq_refl) as H.
  destruct H as [H _]. unfold outcome. simpl in H. rewrite H. reflexivity.
Defined.

Lemma CustomFieldChoice_save_keeps_unique_witness :
  choices_unique (customfieldchoices example_db)
  /\ choices_unique
       (customfieldchoices
          (db (world_after (CustomFieldChoice_save silver_choice) example_world))).
Proof.
  assert (H : choices_unique (customfieldchoices example_db)).
  { split; simpl; repeat constructor; simpl; intuition discriminate. }
  split; [exact H|].
  apply (CustomFieldChoice_save_keeps_unique silver_choice example_world). exact H.
Defined.

(** ** More on deleting a CustomFieldChoice *)

Lemma raises_only_for_each {A} (P : exn -> Prop) (l : list A) (body : A -> M unit) :
  (forall x, raises_only P (body x)) -> raises_only P (for_each l body).
Proof.
  intros Hbody. induction l as [|x l IH]; simpl.
  - apply raises_only_ret.
  - apply raises_only_bind; [apply Hbody | intros _; exact IH].
Qed.

Lemma append_nil_r (s : string) : (s ++ "")%string = s.
Proof. induction s as [|c s IH]; simpl; [reflexivity | now rewrite IH]. Qed.

Lemma prefix_spec (s h : string) :
  String.prefix s h = true <-> exists post, h = (s ++ post)%string.
Proof.
  revert s. induction h as [|c' h IH]; intros [|c s]; simpl.
  - split; [intros _; now exists "" | reflexivity].
  - split; [discriminate | intros [post H]; discriminate].
  - split; [intros _; now exists (String c' h) | reflexivity].
  - destruct (Ascii.ascii_dec c c') as [-> | Hc].
    + rewrite IH. split; intros [post H]; exists post; congruence.
    + split; [discriminate | intros [post H]; congruence].
Qed.

(** [substr_in] finds exactly the texts that occur inside the other. *)
Lemma substr_in_spec (s h : string) :
  substr_in s h = true <-> exists pre post, h = (pre ++ s ++ post)%string.
Proof.
  induction h as [|c h IH].
  - change (substr_in s "") with (String.prefix s "" || false).
    rewrite orb_false_r, prefix_spec. split.
    + intros [post H]. now exists "", post.
    + intros (pre & post & H). destruct pre; [| discriminate]. now exists post.
  - change (substr_in s (String c h))
      with (String.prefix s (String c h) || substr_in s h).
    rewrite orb_true_iff, prefix_spec, IH. split.
    + intros [[post H] | (pre & post & H)].
      * now exists "", post.
      * exists (String c pre), post. simpl. now rewrite H.
    + intros (pre & post & H). destruct pre as [|c' pre]; simpl in H.
      * left. now exists post.
      * right. injection H as _ H. now exists pre, post.
Qed.

Section ChoiceDeleteMore.
Context {rt : Runtime}.
Import CustomFieldChoice.

Lemma default_protection_raises (self : t) :
  raises_only (fun e => ChoiceIsDefaultError e \/ e = TypeError) (default_protection self).
Proof.
  unfold default_protection, ChoiceIsDefaultError.
  apply raises_only_when.
  destruct (type_eqb _ _ && _); repeat raises_body_step; auto.
Qed.

Lemma active_use_protection_raises (self : t) :
  raises_only (fun e => e = ChoiceInUseError) (active_use_protection self).
Proof.
  unfold active_use_protection, ChoiceInUseError.
  destruct (type_eqb _ _);
    (apply raises_only_bind; [apply raises_only_query | intros cts];
     apply raises_only_for_each; intros ct; repeat raises_body_step; reflexivity).
Qed.

(** [delete] is its two checks, which only read, and then the deletion. *)
Lemma CustomFieldChoice_delete_run (self : t) (w : World) :
  CustomFieldChoice_delete self w
  = match outcome (default_protection self) w with
    | Raise e => (w, Raise e)
    | Ok _ =>
        match outcome (active_use_protection self) w with
        | Raise e => (w, Raise e)
        | Ok _ => Model_delete_CustomFieldChoice self w
        end
    end.
Proof.
  unfold CustomFieldChoice_delete, bind.
  rewrite (run_readonly _ w (default_protection_readonly self)).
  destruct (outcome (default_protection self) w) as [[] | e]; [| reflexivity].
  rewrite (run_readonly _ w (active_use_protection_readonly self)).
  destruct (outcome (active_use_protection self) w) as [[] | e]; reflexivity.
Qed.

(** X18: when [delete] raises, nothing has been deleted or written, and the
    error is a ProtectedError, or the TypeError of looking for the value
    inside a default that is not a str, list or dict. *)
Theorem CustomFieldChoice_delete_failure_writes_nothing (self : t) (w : World) (e : exn) :
  outcome (CustomFieldChoice_delete self) w = Raise e ->
  world_after (CustomFieldChoice_delete self) w = w
  /\ ((exists why, e = ProtectedError why) \/ e = TypeError).
Proof.
  unfold outcome at 1, world_after. rewrite CustomFieldChoice_delete_run.
  destruct (outcome (default_protection self) w) as [[] | e1] eqn:H1.
  - destruct (outcome (active_use_protection self) w) as [[] | e2] eqn:H2.
    + discriminate.
    + simpl. intros [= <-]. split; [reflexivity|]. left.
      unfold outcome in H2.
      pose proof (active_use_protection_raises self w) as Hr.
      destruct (active_use_protection self w) as [w2 r2]. simpl in H2. subst r2.
      rewrite (Hr _ _ eq_refl). now eexists.
  - simpl. intros [= <-]. split; [reflexivity|].
    unfold outcome in H1.
    pose proof (default_protection_raises self w) as Hr.
    destruct (default_protection self w) as [w1 r1]. simpl in H1. subst r1.
    destruct (Hr _ _ eq_refl) as [[-> | ->] | ->]; [left | left | right];
      try reflexivity; now eexists.
Qed.

(** X19: when [delete] succeeds, the rows of the choice are gone and the
    deletion is the one effect added: the other rows, the other tables and
    the custom field data of every object are as before, and no task is
    enqueued. *)
Theorem CustomFieldChoice_delete_success_only_removes_row (self : t) (w : World) :
  outcome (CustomFieldChoice_delete self) w = Ok tt ->
  let w' := world_after (CustomFieldChoice_delete self) w in
  customfieldchoices (db w')
  = filter (fun r => negb (Nat.eqb (row_pk r) (pk self))) (customfieldchoices (db w))
  /\ customfields (db w') = customfields (db w)
  /\ content_types (db w') = content_types (db w)
  /\ objects (db w') = objects (db w)
  /\ effects w' = effects w ++ [Deleted extras_customfieldchoice (pk self)].
Proof.
  unfold outcome at 1, world_after. rewrite CustomFieldChoice_delete_run.
  destruct (outcome (default_protection self) w) as [[] | e1]; [| discriminate].
  destruct (outcome (active_use_protection self) w) as [[] | e2]; [| discriminate].
  intros _. simpl. repeat split.
Qed.

(** X20: when the default of the field is a text, [delete] refuses the
    choice as a default exactly when the value of the choice occurs inside
    that text, whatever the type of the field: equal to it or a part of it. *)
Theorem CustomFieldChoice_delete_text_default (self : t) (d : string) (w : World) :
  CustomField.default (field self) = PStr d ->
  d <> "" ->
  (exists e, ChoiceIsDefaultError e /\ outcome (CustomFieldChoice_delete self) w = Raise e)
  <-> exists pre post, d = (pre ++ value self ++ post)%string.
Proof.
  intros Hd Hne. rewrite <- substr_in_spec.
  unfold outcome at 1. rewrite CustomFieldChoice_delete_run.
  assert (Hfirst : outcome (default_protection self) w
                   = if type_eqb (CustomField.type (field self)) TYPE_SELECT
                        && String.eqb d (value self)
                     then Raise (ProtectedError IsDefaultValue)
                     else if substr_in (value self) d
                          then Raise (ProtectedError IsOneOfDefaultValues)
                          else Ok tt).
  { unfold outcome, default_protection. rewrite Hd. simpl.
    apply String.eqb_neq in Hne. rewrite Hne. simpl.
    destruct (type_eqb _ _ && _); [reflexivity|].
    unfold bind, ret, when. simpl. destruct (substr_in (value self) d); reflexivity. }
  rewrite Hfirst.
  destruct (type_eqb _ _ && String.eqb d (value self)) eqn:Hsame.
  - apply andb_prop in Hsame as [_ Heq]. apply String.eqb_eq in Heq. subst d.
    split.
    + intros _. apply substr_in_spec. exists "", "". simpl.
      now rewrite append_nil_r.
    + intros _. eexists. split; [left; reflexivity | reflexivity].
  - destruct (substr_in (value self) d).
    + split; [reflexivity|]. intros _.
      eexists. split; [right; reflexivity | reflexivity].
    + split; [| discriminate]. intros (e & He & Hrun). exfalso.
      destruct (outcome (active_use_protection self) w) as [[] | e2] eqn:H2.
      * discriminate.
      * simpl in Hrun. injection Hrun as ->.
        unfold outcome in H2.
        pose proof (active_use_protection_raises self w) as Hr.
        destruct (active_use_protection self w) as [w2 r2]. simpl in H2. subst r2.
        rewrite (Hr _ _ eq_refl) in He. destruct He; discriminate.
Qed.

End ChoiceDeleteMore.

Lemma CustomFieldChoice_delete_failure_writes_nothing_witness :
  outcome (@CustomFieldChoice_delete example_runtime red_choice) color_world = Raise ChoiceInUseError
  /\ world_after (@CustomFieldChoice_delete example_runtime red_choice) color_world = color_world.
Proof.
  split; [reflexivity|].
  apply (@CustomFieldChoice_delete_failure_writes_nothing example_runtime red_choice color_world
           ChoiceInUseError).
  reflexivity.
Defined.

Lemma CustomFieldChoice_delete_success_only_removes_row_witness :
  outcome (@CustomFieldChoice_delete example_runtime blue_choice) color_world = Ok tt
  /\ customfieldchoices (db (world_after (@CustomFieldChoice_delete example_runtime blue_choice) color_world))
     = [CustomFieldChoice.to_row red_choice]
  /\ effects (world_after (@CustomFieldChoice_delete example_runtime blue_choice) color_world)
     = [Deleted extras_customfieldchoice 21].
Proof.
  split; [reflexivity|].
  pose proof (@CustomFieldChoice_delete_success_only_removes_row example_runtime blue_choice color_world
                eq_refl) as (Hrows & _ & _ & _ & Heffects).
  split; [exact Hrows | exact Heffects].
Defined.

Lemma CustomFieldChoice_delete_text_default_witness :
  CustomField.default (CustomFieldChoice.field gold_choice) = PStr "golden"
  /\ "golden" <> ""
  /\ exists e, ChoiceIsDefaultError e
               /\ outcome (@CustomFieldChoice_delete example_runtime gold_choice) example_world = Raise e.
Proof.
  split; [reflexivity | split; [discriminate|]].
  apply (proj2 (@CustomFieldChoice_delete_text_default example_runtime gold_choice "golden" example_world
                  eq_refl ltac:(discriminate))).
  exists "", "en". reflexivity.
Defined.

(** ** A CustomField and its relations after delete *)

Section FieldDeleteMore.
Import CustomField.

Lemma filter_comm {A} (p q : A -> bool) (l : list A) :
  filter p (filter q l) = filter q (filter p l).
Proof.
  induction l as [|a l IH]; simpl; [reflexivity|].
  destruct (p a) eqn:Hp, (q a) eqn:Hq; simpl; rewrite ?Hp, ?Hq, IH; reflexivity.
Qed.

Lemma filter_other_key {A} (key : A -> nat) (k k' : nat) (l : list A) :
  k <> k' ->
  filter (fun a => Nat.eqb (key a) k) (filter (fun a => negb (Nat.eqb (key a) k')) l)
  = filter (fun a => Nat.eqb (key a) k) l.
Proof.
  intros Hk. induction l as [|a l IH]; simpl; [reflexivity|].
  destruct (Nat.eqb_spec (key a) k') as [Ha | Ha]; simpl.
  - destruct (Nat.eqb_spec (key a) k); [congruence | exact IH].
  - now rewrite IH.
Qed.

Lemma existsb_other_key (f ct k' : nat) (l : list (nat * nat)) :
  f <> k' ->
  existsb (fun p => Nat.eqb (fst p) f && Nat.eqb (snd p) ct)
          (filter (fun p => negb (Nat.eqb (fst p) k')) l)
  = existsb (fun p => Nat.eqb (fst p) f && Nat.eqb (snd p) ct) l.
Proof.
  intros Hf. induction l as [|a l IH]; simpl; [reflexivity|].
  destruct (Nat.eqb_spec (fst a) k') as [Ha | Ha]; simpl.
  - rewrite IH. destruct (Nat.eqb_spec (fst a) f); [congruence | reflexivity].
  - now rewrite IH.
Qed.

(** X21: after [CustomField.delete] the field applies to no model any
    more while every other field applies where it did; its choices are gone
    while those of the other fields are kept; and the custom field data of
    the objects is untouched: removing the stale values is left to the task
    that was enqueued. *)
Theorem CustomField_delete_relations (self : t) (w : World) :
  let w' := world_after (CustomField_delete self) w in
  (forall ct, get_for_model ct (db w')
              = filter (fun f => negb (Nat.eqb (pk f) (pk self))) (get_for_model ct (db w)))
  /\ choices_all self (db w') = []
  /\ (forall other, pk other <> pk self ->
        choices_all other (db w') = choices_all other (db w))
  /\ objects (db w') = objects (db w).
Proof.
  unfold CustomField_delete, world_after, bind, query, Model_delete_CustomField, delay.
  simpl. repeat split.
  - intros ct. unfold get_for_model. simpl.
    rewrite (filter_comm (fun f => negb _)).
    apply filter_ext_in. intros f Hf.
    apply filter_In in Hf as [_ Hf]. apply negb_true_iff, Nat.eqb_neq in Hf.
    now apply existsb_other_key.
  - unfold choices_all. simpl.
    apply (filter_removed _ CustomFieldChoice.field_id).
  - intros other Hother. unfold choices_all. simpl.
    now apply (filter_other_key CustomFieldChoice.field_id).
Qed.

End FieldDeleteMore.

(** ** The dict of applicable fields *)

Section FieldsByName.
Import CustomField.

Lemma dict_get_set {V} (k k' : string) (v : V) (d : dict V) :
  dict_get k (dict_set k' v d) = if String.eqb k k' then Some v else dict_get k d.
Proof.
  induction d as [|[k0 v0] d IH]; simpl.
  - reflexivity.
  - destruct (String.eqb_spec k' k0) as [-> | Hk0]; simpl.
    + destruct (String.eqb k k0); reflexivity.
    + rewrite IH. destruct (String.eqb_spec k k0) as [-> | Hk].
      * apply String.eqb_neq in Hk0. rewrite String.eqb_sym in Hk0.
        now rewrite Hk0.
      * reflexivity.
Qed.

Lemma dict_set_new {V} (k : string) (v : V) (d : dict V) :
  dict_get k d = None -> dict_set k v d = d ++ [(k, v)].
Proof.
  induction d as [|[k0 v0] d IH]; simpl; [reflexivity|].
  destruct (String.eqb k k0); [discriminate|]. intros H. now rewrite IH.
Qed.

Lemma dict_get_app_new {V} (k k' : string) (v : V) (d : dict V) :
  k <> k' -> dict_get k (d ++ [(k', v)]) = dict_get k d.
Proof.
  intros Hk. induction d as [|[k0 v0] d IH]; simpl.
  - apply String.eqb_neq in Hk. now rewrite Hk.
  - destruct (String.eqb k k0); [reflexivity | exact IH].
Qed.

Local Abbreviation add_by_name := (fun (acc : dict t) (cf : t) => dict_set (name cf) cf acc).

Lemma fold_by_name_get_absent (k : string) (l : list t) (acc : dict t) :
  (forall f, In f l -> name f <> k) ->
  dict_get k (fold_left add_by_name l acc) = dict_get k acc.
Proof.
  revert acc. induction l as [|a l IH]; intros acc Habsent; simpl; [reflexivity|].
  rewrite IH by (intros f Hf; apply Habsent; now right).
  rewrite dict_get_set.
  destruct (String.eqb_spec k (name a)) as [-> |]; [| reflexivity].
  exfalso. apply (Habsent a); [now left | reflexivity].
Qed.

Lemma fold_by_name_get_found (k : string) (l : list t) (acc : dict t) (cf : t) :
  dict_get k (fold_left add_by_name l acc) = Some cf ->
  (In cf l /\ name cf = k) \/ dict_get k acc = Some cf.
Proof.
  revert acc. induction l as [|a l IH]; intros acc; simpl; [now right|].
  intros H. apply IH in H as [[Hin Hname] | H]; [left; split; [now right | exact Hname]|].
  rewrite dict_get_set in H.
  destruct (String.eqb_spec k (name a)) as [-> |]; [| now right].
  injection H as <-. left. split; [now left | reflexivity].
Qed.

Lemma fold_by_name_unique (l : list t) (acc : dict t) :
  NoDup (map name l) ->
  (forall f, In f l -> dict_get (name f) acc = None) ->
  fold_left add_by_name l acc = acc ++ map (fun f => (name f, f)) l.
Proof.
  revert acc. induction l as [|a l IH]; intros acc Hnd Hnew; simpl.
  - now rewrite app_nil_r.
  - inversion Hnd as [|? ? Ha Hnd']; subst.
    rewrite dict_set_new by (apply Hnew; now left).
    rewrite IH; [now rewrite <- app_assoc | exact Hnd' |].
    intros f Hf. rewrite dict_get_app_new; [apply Hnew; now right|].
    intros Heq. apply Ha. rewrite <- Heq. now apply in_map.
Qed.

Lemma by_name_get_absent (k : string) (l : list t) :
  (forall f, In f l -> name f <> k) -> dict_get k (by_name l) = None.
Proof. intros H. unfold by_name. now rewrite (fold_by_name_get_absent k l [] H). Qed.

Lemma by_name_get_found (k : string) (l : list t) (cf : t) :
  dict_get k (by_name l) = Some cf -> In cf l /\ name cf = k.
Proof.
  intros H. apply (fold_by_name_get_found k l []) in H as [H | H];
    [exact H | discriminate].
Qed.

(** X22: when the names of the fields are unique, as the unique column
    makes them, the dict that [CustomFieldModel.clean] builds keeps the
    fields in the order of the queryset, and looking a field's name up gives
    that field. *)
Theorem by_name_of_unique_names (l : list t) :
  NoDup (map name l) ->
  dict_values (by_name l) = l
  /\ forall cf, In cf l -> dict_get (name cf) (by_name l) = Some cf.
Proof.
  intros Hnd.
  assert (Hall : by_name l = map (fun f => (name f, f)) l).
  { unfold by_name. now rewrite (fold_by_name_unique l [] Hnd). }
  split.
  - rewrite Hall. unfold dict_values. rewrite map_map. simpl. apply map_id.
  - rewrite Hall. clear Hall. induction l as [|a l IH]; intros cf []; simpl.
    + subst. now rewrite String.eqb_refl.
    + inversion Hnd as [|? ? Ha Hnd']; subst.
      destruct (String.eqb_spec (name cf) (name a)) as [Heq |].
      * exfalso. apply Ha. rewrite <- Heq. now apply in_map.
      * now apply IH.
Qed.

End FieldsByName.

(** ** More on cleaning the custom field data of an object *)

Lemma for_each_ok_iff {A} (l : list A) (body : A -> M unit) (w : World) :
  (forall x, readonly (body x)) ->
  outcome (for_each l body) w = Ok tt
  <-> forall x, In x l -> outcome (body x) w = Ok tt.
Proof.
  intros Hbody. induction l as [|a l IH]; simpl.
  - split; [intros _ x [] | reflexivity].
  - unfold outcome at 1, bind. rewrite (run_readonly _ w (Hbody a)).
    destruct (outcome (body a) w) as [[] | e] eqn:Ha.
    + fold (outcome (for_each l body) w). rewrite IH. split.
      * intros H x [<- | Hx]; [exact Ha | now apply H].
      * intros H x Hx. apply H. now right.
    + simpl. split; [discriminate|]. intros H.
      specialize (H a (or_introl eq_refl)). congruence.
Qed.

(** A loop that raises for the first element that meets a test. *)
Lemma for_each_find {A} (l : list A) (c : A -> bool) (e : A -> exn) (w : World) :
  for_each l (fun x => when (c x) (raise (e x))) w
  = (w, match find c l with Some x => Raise (e x) | None => Ok tt end).
Proof.
  induction l as [|a l IH]; simpl; [reflexivity|].
  unfold bind. destruct (c a); simpl; [reflexivity | exact IH].
Qed.

Section BagCleanMore.
Context {rt : Runtime}.
Import CustomFieldModel.

(** The body of the first loop of [clean], for one item of the bag. *)
Local Abbreviation check_item custom_fields :=
  (fun item : string * pyval =>
     let '(field_name, value) := item in
     match dict_get field_name custom_fields with
     | None => raise (ValidationError None (UnknownFieldName field_name))
     | Some cf =>
         except_ValidationError (CustomField_validate cf value)
           (fun message => raise (ValidationError None (InvalidValue field_name message)))
     end).

Lemma check_item_readonly (custom_fields : dict CustomField.t) (item : string * pyval) :
  readonly (check_item custom_fields item).
Proof.
  pose proof CustomField_validate_readonly.
  destruct item as [k v]. repeat readonly_step.
Qed.

Lemma check_item_ok (custom_fields : dict CustomField.t) (k : string) (v : pyval)
    (w : World) :
  outcome (check_item custom_fields (k, v)) w = Ok tt
  <-> exists cf, dict_get k custom_fields = Some cf
                 /\ outcome (CustomField_validate cf v) w = Ok tt.
Proof.
  unfold outcome. destruct (dict_get k custom_fields) as [cf|]; simpl.
  - unfold except_ValidationError.
    destruct (CustomField_validate cf v w) as [w1 [[] | e]] eqn:E; simpl.
    + split; [intros _; exists cf; now rewrite E | reflexivity].
    + split.
      * destruct e; discriminate.
      * intros (cf' & [= <-] & H). rewrite E in H. discriminate.
  - split; [discriminate | intros (cf & H & _); discriminate].
Qed.

Lemma CustomFieldModel_clean_run (self : t) (w : World) :
  let custom_fields := by_name (get_for_model (content_type self) (db w)) in
  CustomFieldModel_clean self w
  = match outcome (for_each (custom_field_data self) (check_item custom_fields)) w with
    | Raise e => (w, Raise e)
    | Ok _ =>
        (w, match find (fun cf => CustomField.required cf
                                  && negb (dict_mem (CustomField.name cf)
                                                    (custom_field_data self)))
                       (dict_values custom_fields) with
            | Some cf => Raise (ValidationError None (MissingRequired (CustomField.name cf)))
            | None => Ok tt
            end)
    end.
Proof.
  intros custom_fields. unfold CustomFieldModel_clean.
  unfold bind at 1. unfold query at 1. fold custom_fields.
  unfold bind at 1.
  rewrite (run_readonly _ w
             (readonly_for_each _ _ (check_item_readonly custom_fields))).
  destruct (outcome _ w) as [[] | e]; [| reflexivity].
  apply (for_each_find (dict_values custom_fields)
           (fun cf => CustomField.required cf
                      && negb (dict_mem (CustomField.name cf) (custom_field_data self)))
           (fun cf => ValidationError None (MissingRequired (CustomField.name cf)))).
Qed.

(** X23: [CustomFieldModel.clean] succeeds exactly when every key of the
    bag names an applicable field whose [validate] accepts the stored value,
    and every required applicable field has its key in the bag. *)
Theorem CustomFieldModel_clean_succeeds_iff (self : t) (w : World) :
  let custom_fields := by_name (get_for_model (content_type self) (db w)) in
  outcome (CustomFieldModel_clean self) w = Ok tt
  <-> (forall k v, In (k, v) (custom_field_data self) ->
         exists cf, dict_get k custom_fields = Some cf
                    /\ outcome (CustomField_validate cf v) w = Ok tt)
      /\ (forall cf, In cf (dict_values custom_fields) ->
            CustomField.required cf = true ->
            dict_mem (CustomField.name cf) (custom_field_data self) = true).
Proof.
  intros custom_fields. unfold outcome at 1.
  rewrite CustomFieldModel_clean_run. fold custom_fields.
  assert (Hitems :
            outcome (for_each (custom_field_data self) (check_item custom_fields)) w = Ok tt
            <-> forall k v, In (k, v) (custom_field_data self) ->
                  exists cf, dict_get k custom_fields = Some cf
                             /\ outcome (CustomField_validate cf v) w = Ok tt).
  { rewrite (for_each_ok_iff _ _ w (check_item_readonly custom_fields)). split.
    - intros H k v Hin. apply check_item_ok. exact (H (k, v) Hin).
    - intros H [k v] Hin. apply check_item_ok. exact (H k v Hin). }
  destruct (outcome (for_each _ _) w) as [[] | e].
  - simpl.
    destruct (find _ (dict_values custom_fields)) as [cf|] eqn:Hfind.
    + split; [discriminate|]. intros [_ Hreq]. exfalso.
      apply find_some in Hfind as [Hin Hcf].
      apply andb_prop in Hcf as [Hr Hmem].
      rewrite (Hreq cf Hin Hr) in Hmem. discriminate.
    + split; [| reflexivity]. intros _. split; [now apply Hitems|].
      intros cf Hin Hr.
      pose proof (find_none _ _ Hfind cf Hin) as Hcf. simpl in Hcf.
      rewrite Hr in Hcf. simpl in Hcf. now apply negb_false_iff in Hcf.
  - simpl. split; [discriminate|]. intros [Hall _].
    apply Hitems in Hall. discriminate.
Qed.

(** X24: when every item of the bag is accepted, [clean] reports the first
    required applicable field, in the order of the queryset, whose key is
    not in the bag, and succeeds if there is none. *)
Theorem CustomFieldModel_clean_reports_first_missing (self : t) (w : World) :
  let custom_fields := by_name (get_for_model (content_type self) (db w)) in
  (forall k v, In (k, v) (custom_field_data self) ->
     exists cf, dict_get k custom_fields = Some cf
                /\ outcome (CustomField_validate cf v) w = Ok tt) ->
  CustomFieldModel_clean self w
  = (w, match find (fun cf => CustomField.required cf
                              && negb (dict_mem (CustomField.name cf)
                                                (custom_field_data self)))
                   (dict_values custom_fields) with
        | Some cf => Raise (ValidationError None (MissingRequired (CustomField.name cf)))
        | None => Ok tt
        end).
Proof.
  intros custom_fields Hall. rewrite CustomFieldModel_clean_run. fold custom_fields.
  assert (Hitems :
            outcome (for_each (custom_field_data self) (check_item custom_fields)) w = Ok tt).
  { apply (for_each_ok_iff _ _ w (check_item_readonly custom_fields)).
    intros [k v] Hin. apply check_item_ok. exact (Hall k v Hin). }
  now rewrite Hitems.
Qed.

(** X25: the first item of the bag that [validate] refuses is reported as
    an invalid value of its key, with the reason [validate] gave; the items
    after it are not looked at. *)
Theorem CustomFieldModel_clean_wraps_invalid_value
    (self : t) (w : World) (before after : dict pyval)
    (field_name : string) (value : pyval) (cf : CustomField.t)
    (key : option string) (reason : Message) :
  let custom_fields := by_name (get_for_model (content_type self) (db w)) in
  custom_field_data self = before ++ (field_name, value) :: after ->
  (forall k v, In (k, v) before ->
     exists cf, dict_get k custom_fields = Some cf
                /\ outcome (CustomField_validate cf v) w = Ok tt) ->
  dict_get field_name custom_fields = Some cf ->
  outcome (CustomField_validate cf value) w = Raise (ValidationError key reason) ->
  CustomFieldModel_clean self w
  = (w, Raise (ValidationError None (InvalidValue field_name reason))).
Proof.
  intros custom_fields Hdata Hbefore Hcf Hval.
  unfold CustomFieldModel_clean. unfold bind at 1. unfold query at 1.
  fold custom_fields. rewrite Hdata. unfold bind at 1.
  rewrite for_each_stops
    with (e := ValidationError None (InvalidValue field_name reason)).
  - reflexivity.
  - intros [k v] Hin.
    rewrite (run_readonly _ w (check_item_readonly custom_fields (k, v))).
    f_equal. apply check_item_ok. exact (Hbefore k v Hin).
  - rewrite Hcf. unfold except_ValidationError.
    rewrite (run_readonly _ w (CustomField_validate_readonly cf value)), Hval.
    reflexivity.
Qed.

End BagCleanMore.

Lemma by_name_of_unique_names_witness :
  NoDup (map CustomField.name [priority_field; count_field])
  /\ dict_values (by_name [priority_field; count_field]) = [priority_field; count_field]
  /\ dict_get "count" (by_name [priority_field; count_field]) = Some count_field.
Proof.
  assert (H : NoDup (map CustomField.name [priority_field; count_field])).
  { simpl. repeat constructor; simpl; intuition discriminate. }
  split; [exact H|].
  destruct (by_name_of_unique_names [priority_field; count_field] H) as [Hvalues Hget].
  split; [exact Hvalues|].
  apply (Hget count_field). right; now left.
Defined.

Lemma CustomFieldModel_clean_reports_first_missing_witness :
  dict_get "count" (by_name (get_for_model 9 (db bag_world))) = Some count_field
  /\ outcome (@CustomField_validate example_runtime count_field (PInt 2)) bag_world = Ok tt
  /\ @CustomFieldModel_clean example_runtime counted_object bag_world
     = (bag_world, Raise (ValidationError None (MissingRequired "priority"))).
Proof.
  split; [reflexivity | split; [reflexivity|]].
  apply (@CustomFieldModel_clean_reports_first_missing example_runtime counted_object
           bag_world).
  intros k v [H | []]. injection H as <- <-.
  exists count_field. split; reflexivity.
Defined.

Lemma CustomFieldModel_clean_wraps_invalid_value_witness :
  CustomFieldModel.custom_field_data urgent_object
  = [("count", PInt 2)] ++ ("priority", PInt 9) :: []
  /\ dict_get "priority" (by_name (get_for_model 9 (db bag_world))) = Some priority_field
  /\ outcome (@CustomField_validate example_runtime priority_field (PInt 9)) bag_world
     = Raise (ValidationError None (MustNotExceed 5))
  /\ @CustomFieldModel_clean example_runtime urgent_object bag_world
     = (bag_world,
        Raise (ValidationError None (InvalidValue "priority" (MustNotExceed 5)))).
Proof.
  split; [reflexivity | split; [reflexivity | split; [reflexivity|]]].
  apply (@CustomFieldModel_clean_wraps_invalid_value example_runtime urgent_object
           bag_world [("count", PInt 2)] [] "priority" (PInt 9) priority_field None
           (MustNotExceed 5)); try reflexivity.
  intros k v [H | []]. injection H as <- <-.
  exists count_field. split; reflexivity.
Defined.

(** ** Stale custom field data *)

Section StaleData.
Context {rt : Runtime}.

(** X26: between [CustomField.delete] and the run of the task it enqueues,
    an object that still holds the deleted field's key first in its bag is
    refused by [clean] as holding an unknown field, given that no other
    field has the same name. *)
Theorem CustomFieldModel_clean_after_field_delete
    (field : CustomField.t) (object : CustomFieldModel.t)
    (value : pyval) (rest : dict pyval) (w : World) :
  (forall other, In other (customfields (db w)) ->
     CustomField.name other = CustomField.name field ->
     CustomField.pk other = CustomField.pk field) ->
  CustomFieldModel.custom_field_data object = (CustomField.name field, value) :: rest ->
  let w' := world_after (CustomField_delete field) w in
  CustomFieldModel_clean object w'
  = (w', Raise (ValidationError None (UnknownFieldName (CustomField.name field)))).
Proof.
  intros Hunique Hdata w'.
  assert (Hgone : dict_get (CustomField.name field)
                    (by_name (get_for_model (CustomFieldModel.content_type object) (db w')))
                  = None).
  { apply by_name_get_absent. intros f Hf Hname.
    unfold get_for_model in Hf. apply filter_In in Hf as [Hf _].
    unfold w', CustomField_delete, world_after, bind, query, Model_delete_CustomField,
      delay in Hf. simpl in Hf.
    apply filter_In in Hf as [Hf Hpk].
    apply negb_true_iff, Nat.eqb_neq in Hpk. apply Hpk. now apply Hunique. }
  unfold CustomFieldModel_clean. unfold bind at 1. unfold query at 1.
  rewrite Hdata. unfold bind at 1.
  rewrite (for_each_stops [] rest (CustomField.name field, value) _
             (ValidationError None (UnknownFieldName (CustomField.name field)))).
  - reflexivity.
  - intros y [].
  - now rewrite Hgone.
Qed.

End StaleData.

Lemma CustomFieldModel_clean_after_field_delete_witness :
  (forall other, In other (customfields (db bag_world)) ->
     CustomField.name other = CustomField.name priority_field ->
     CustomField.pk other = CustomField.pk priority_field)
  /\ outcome (@CustomFieldModel_clean example_runtime prioritized_object) bag_world = Ok tt
  /\ outcome (@CustomFieldModel_clean example_runtime prioritized_object)
             (world_after (CustomField_delete priority_field) bag_world)
     = Raise (ValidationError None (UnknownFieldName "priority")).
Proof.
  assert (H : forall other, In other (customfields (db bag_world)) ->
                CustomField.name other = CustomField.name priority_field ->
                CustomField.pk other = CustomField.pk priority_field).
  { intros other [<- | [<- | []]]; [reflexivity | discriminate]. }
  split; [exact H | split; [reflexivity|]].
  unfold outcome.
  rewrite (@CustomFieldModel_clean_after_field_delete example_runtime priority_field
             prioritized_object (PInt 3) [("count", PInt 2)] bag_world H eq_refl).
  reflexivity.
Defined.

(** ** The custom fields of an object *)

Section GetCustomFields.
Import CustomFieldModel.

Lemma ordered_dict_set_new (field : CustomField.t) (value : pyval)
    (d : list (CustomField.t * pyval)) :
  (forall p, In p d -> CustomField.pk (fst p) <> CustomField.pk field) ->
  ordered_dict_set field value d = d ++ [(field, value)].
Proof.
  induction d as [|[f v] d IH]; simpl; intros Hnew; [reflexivity|].
  destruct (Nat.eqb_spec (CustomField.pk field) (CustomField.pk f)) as [Heq | _].
  - exfalso. apply (Hnew (f, v)); [now left | now symmetry].
  - rewrite IH; [reflexivity|]. intros p Hp. apply Hnew. now right.
Qed.

Lemma fold_ordered_dict_set (g : CustomField.t -> pyval) (l : list CustomField.t)
    (acc : list (CustomField.t * pyval)) :
  NoDup (map CustomField.pk l) ->
  (forall f p, In f l -> In p acc -> CustomField.pk (fst p) <> CustomField.pk f) ->
  fold_left (fun acc field => ordered_dict_set field (g field) acc) l acc
  = acc ++ map (fun f => (f, g f)) l.
Proof.
  revert acc. induction l as [|a l IH]; intros acc Hnd Hnew; simpl.
  - now rewrite app_nil_r.
  - inversion Hnd as [|? ? Ha Hnd']; subst.
    rewrite ordered_dict_set_new by (intros p Hp; apply (Hnew a p); [now left | exact Hp]).
    rewrite IH; [now rewrite <- app_assoc | exact Hnd' |].
    intros f p Hf Hp. apply in_app_iff in Hp as [Hp | [<- | []]].
    + apply (Hnew f p); [now right | exact Hp].
    + simpl. intros Heq. apply Ha. rewrite Heq. now apply in_map.
Qed.

Lemma NoDup_map_filter {A B} (key : A -> B) (p : A -> bool) (l : list A) :
  NoDup (map key l) -> NoDup (map key (filter p l)).
Proof.
  induction l as [|a l IH]; simpl; intros Hnd; [constructor|].
  inversion Hnd as [|? ? Ha Hnd']; subst.
  destruct (p a); simpl; [| now apply IH].
  constructor; [| now apply IH].
  intros Hin. apply Ha. apply in_map_iff in Hin as (x & Hx & Hin).
  apply in_map_iff. exists x. split; [exact Hx|]. now apply filter_In in Hin as [Hin _].
Qed.

Lemma get_custom_fields_run (self : t) (w : World) :
  NoDup (map CustomField.pk (customfields (db w))) ->
  CustomFieldModel_get_custom_fields self w
  = (w, Ok (map (fun f => (f, dict_get_or_None (CustomField.name f)
                                               (custom_field_data self)))
                (get_for_model (content_type self) (db w)))).
Proof.
  intros Hnd. unfold CustomFieldModel_get_custom_fields, bind, query, ret.
  rewrite (fold_ordered_dict_set
             (fun f => dict_get_or_None (CustomField.name f) (custom_field_data self))).
  - reflexivity.
  - unfold get_for_model. now apply NoDup_map_filter.
  - intros f p _ [].
Qed.

(** X27: when primary keys are unique, [get_custom_fields] lists every
    field that applies to the model of the object exactly once, in the order
    of the queryset, each with the value the bag holds under the field's
    name, or None; a key of the bag that names no applicable field is not
    listed. *)
Theorem CustomFieldModel_get_custom_fields_lists_applicable (self : t) (w : World) :
  NoDup (map CustomField.pk (customfields (db w))) ->
  exists listed,
    CustomFieldModel_get_custom_fields self w = (w, Ok listed)
    /\ map fst listed = get_for_model (content_type self) (db w)
    /\ forall field value, In (field, value) listed ->
          match dict_get (CustomField.name field) (custom_field_data self) with
          | Some stored => value = stored
          | None => value = PNone
          end.
Proof.
  intros Hnd. eexists. split; [apply (get_custom_fields_run self w Hnd)|]. split.
  - rewrite map_map. simpl. apply map_id.
  - intros field value Hin. apply in_map_iff in Hin as (f & [= <- <-] & _).
    unfold dict_get_or_None.
    destruct (dict_get (CustomField.name f) (custom_field_data self)); reflexivity.
Qed.

End GetCustomFields.

Section GetCustomFieldsAfterClean.
Context {rt : Runtime}.
Import CustomFieldModel.

Lemma dict_get_of_unique_key {V} (k : string) (v : V) (d : dict V) :
  NoDup (map fst d) -> In (k, v) d -> dict_get k d = Some v.
Proof.
  induction d as [|[k0 v0] d IH]; simpl; intros Hnd []; inversion Hnd as [|? ? Hk0 Hnd'];
    subst.
  - match goal with H : (_, _) = (_, _) |- _ => injection H as -> -> end.
    now rewrite String.eqb_refl.
  - destruct (String.eqb_spec k k0) as [-> |]; [| now apply IH].
    exfalso. apply Hk0. apply in_map_iff. now exists (k0, v).
Qed.

(** X28: when [clean] accepts the bag of an object, [get_custom_fields]
    shows all of it: every key of the bag names a listed field, listed with
    the value stored under that key.  The keys of the bag are distinct, as
    those of a dict are, and so are the primary keys of the fields. *)
Theorem CustomFieldModel_get_custom_fields_shows_clean_bag (self : t) (w : World) :
  NoDup (map CustomField.pk (customfields (db w))) ->
  NoDup (map fst (custom_field_data self)) ->
  outcome (CustomFieldModel_clean self) w = Ok tt ->
  exists listed,
    CustomFieldModel_get_custom_fields self w = (w, Ok listed)
    /\ forall k v, In (k, v) (custom_field_data self) ->
          exists field, CustomField.name field = k /\ In (field, v) listed.
Proof.
  intros Hpks Hkeys Hclean.
  eexists. split; [apply (get_custom_fields_run self w Hpks)|].
  intros k v Hin.
  unfold outcome in Hclean. rewrite CustomFieldModel_clean_run in Hclean.
  destruct (outcome (for_each (custom_field_data self) _) w) as [[] | e] eqn:Hitems;
    [| discriminate].
  pose proof (proj1 (for_each_ok_iff _ _ w (check_item_readonly _)) Hitems (k, v) Hin)
    as Hitem.
  apply check_item_ok in Hitem as (cf & Hcf & _).
  apply by_name_get_found in Hcf as [Hcf Hname].
  exists cf. split; [exact Hname|].
  apply in_map_iff. exists cf. split; [| exact Hcf].
  unfold dict_get_or_None. rewrite Hname.
  now rewrite (dict_get_of_unique_key k v _ Hkeys Hin).
Qed.

End GetCustomFieldsAfterClean.

Lemma CustomFieldModel_get_custom_fields_lists_applicable_witness :
  NoDup (map CustomField.pk (customfields (db bag_world)))
  /\ exists listed,
       CustomFieldModel_get_custom_fields stray_object bag_world = (bag_world, Ok listed)
       /\ map fst listed = [priority_field; count_field]
       /\ forall field value, In (field, value) listed ->
             match dict_get (CustomField.name field)
                            (CustomFieldModel.custom_field_data stray_object) with
             | Some stored => value = stored
             | None => value = PNone
             end.
Proof.
  assert (H : NoDup (map CustomField.pk (customfields (db bag_world)))).
  { simpl. repeat constructor; simpl; intuition discriminate. }
  split; [exact H|].
  apply (CustomFieldModel_get_custom_fields_lists_applicable stray_object bag_world H).
Defined.

Lemma CustomFieldModel_get_custom_fields_shows_clean_bag_witness :
  NoDup (map CustomField.pk (customfields (db bag_world)))
  /\ NoDup (map fst (CustomFieldModel.custom_field_data complete_object))
  /\ outcome (@CustomFieldModel_clean example_runtime complete_object) bag_world = Ok tt
  /\ exists listed,
       CustomFieldModel_get_custom_fields complete_object bag_world = (bag_world, Ok listed)
       /\ forall k v, In (k, v) (CustomFieldModel.custom_field_data complete_object) ->
            exists field, CustomField.name field = k /\ In (field, v) listed.
Proof.
  assert (H1 : NoDup (map CustomField.pk (customfields (db bag_world)))).
  { simpl. repeat constructor; simpl; intuition discriminate. }
  assert (H2 : NoDup (map fst (CustomFieldModel.custom_field_data complete_object))).
  { simpl. repeat constructor; simpl; intuition discriminate. }
  split; [exact H1 | split; [exact H2 | split; [reflexivity|]]].
  apply (@CustomFieldModel_get_custom_fields_shows_clean_bag example_runtime
           complete_object bag_world H1 H2).
  reflexivity.
Defined.

(** ** Choices and the values a select field accepts *)

Section ChoicesAndValidation.
Context {rt : Runtime}.
Import CustomFieldChoice.

(** X29: after a [save] that succeeds, the select field of the choice
    accepts the value of the choice. *)
Theorem CustomField_validate_accepts_saved_choice (self : t) (w : World) :
  CustomField.type (field self) = TYPE_SELECT ->
  value self <> "" ->
  outcome (CustomFieldChoice_save self) w = Ok tt ->
  outcome (CustomField_validate (field self) (PStr (value self)))
          (world_after (CustomFieldChoice_save self) w) = Ok tt.
Proof.
  intros Hty Hne Hok.
  destruct (CustomFieldChoice_save_cases self w)
    as [(e & Hrun & _) | (_ & _ & _ & Hdb & _)].
  { unfold outcome in Hok. rewrite Hrun in Hok. discriminate. }
  unfold outcome.
  rewrite (CustomField_validate_select_run (field self) _ _ Hty)
    by (destruct (value self); [contradiction | reflexivity]).
  simpl.
  assert (Hin : in_strs (PStr (value self))
                  (choices_values (field self)
                     (db (world_after (CustomFieldChoice_save self) w))) = true).
  { apply in_strs_true. exists (value self). split; [reflexivity|].
    rewrite Hdb. unfold choices_values, choices_all.
    apply in_map_iff. exists (to_row self). split; [reflexivity|].
    apply filter_In. split; [| apply Nat.eqb_refl].
    unfold db_with_choice. simpl.
    destruct (existsb _ (customfieldchoices (db w))) eqn:Htaken.
    - apply existsb_exists in Htaken as (r & Hr & Hpk).
      apply in_map_iff. exists r. split; [now rewrite Hpk | exact Hr].
    - apply in_app_iff. right. now left. }
  now rewrite Hin.
Qed.

(** X30: after a [delete] that succeeds, the select field of the choice
    refuses the value of the choice, given that no other choice of the field
    has the same value. *)
Theorem CustomField_validate_refuses_deleted_choice (self : t) (w : World) :
  CustomField.type (field self) = TYPE_SELECT ->
  value self <> "" ->
  unique_together_taken self (customfieldchoices (db w)) = false ->
  outcome (CustomFieldChoice_delete self) w = Ok tt ->
  exists available,
    outcome (CustomField_validate (field self) (PStr (value self)))
            (world_after (CustomFieldChoice_delete self) w)
    = Raise (ValidationError None (InvalidChoice (PStr (value self)) available)).
Proof.
  intros Hty Hne Huniq Hok.
  assert (Hdb : customfieldchoices (db (world_after (CustomFieldChoice_delete self) w))
                = filter (fun r => negb (Nat.eqb (row_pk r) (pk self)))
                         (customfieldchoices (db w))).
  { unfold outcome in Hok. unfold world_after.
    rewrite CustomFieldChoice_delete_run in *.
    destruct (outcome (default_protection self) w) as [[] | e1]; [| discriminate].
    destruct (outcome (active_use_protection self) w) as [[] | e2]; [| discriminate].
    reflexivity. }
  unfold outcome.
  rewrite (CustomField_validate_select_run (field self) _ _ Hty)
    by (destruct (value self); [contradiction | reflexivity]).
  simpl.
  destruct (in_strs _ _) eqn:Hin; [| eexists; reflexivity].
  exfalso. apply in_strs_true in Hin as (s & [= <-] & Hs).
  unfold choices_values, choices_all in Hs. rewrite Hdb in Hs.
  apply in_map_iff in Hs as (r & Hvalue & Hr).
  apply filter_In in Hr as [Hr Hfield]. apply filter_In in Hr as [Hr Hpk].
  apply negb_true_iff, Nat.eqb_neq in Hpk. apply Nat.eqb_eq in Hfield.
  apply (unique_together_free self _ Huniq r Hr Hpk).
  unfold pair_of. simpl. congruence.
Qed.

End ChoicesAndValidation.

Lemma CustomField_validate_accepts_saved_choice_witness :
  CustomField.type (CustomFieldChoice.field silver_choice) = TYPE_SELECT
  /\ CustomFieldChoice.value silver_choice <> ""
  /\ outcome (CustomFieldChoice_save silver_choice) example_world = Ok tt
  /\ outcome (@CustomField_validate example_runtime tier_field (PStr "silver")) example_world
     = Raise (ValidationError None (InvalidChoice (PStr "silver") "gold, golden"))
  /\ outcome (@CustomField_validate example_runtime tier_field (PStr "silver"))
             (world_after (CustomFieldChoice_save silver_choice) example_world) = Ok tt.
Proof.
  split; [reflexivity | split; [discriminate | split; [reflexivity | split; [reflexivity|]]]].
  apply (@CustomField_validate_accepts_saved_choice example_runtime silver_choice
           example_world); [reflexivity | discriminate | reflexivity].
Defined.

Lemma CustomField_validate_refuses_deleted_choice_witness :
  CustomField.type (CustomFieldChoice.field blue_choice) = TYPE_SELECT
  /\ CustomFieldChoice.value blue_choice <> ""
  /\ unique_together_taken blue_choice (customfieldchoices (db color_world)) = false
  /\ outcome (@CustomFieldChoice_delete example_runtime blue_choice) color_world = Ok tt
  /\ outcome (@CustomField_validate example_runtime color_field (PStr "blue")) color_world
     = Ok tt
  /\ exists available,
       outcome (@CustomField_validate example_runtime color_field (PStr "blue"))
               (world_after (@CustomFieldChoice_delete example_runtime blue_choice) color_world)
       = Raise (ValidationError None (InvalidChoice (PStr "blue") available)).
Proof.
  split; [reflexivity | split; [discriminate | split; [reflexivity |
    split; [reflexivity | split; [reflexivity|]]]]].
  apply (@CustomField_validate_refuses_deleted_choice example_runtime blue_choice
           color_world); [reflexivity | discriminate | reflexivity | reflexivity].
Defined.
